(** * scr/pic/draw.py: drawing circles on a base64-encoded image

    A shallow embedding of [draw_circles_on_image_v2] and the properties its
    specification states about it.

    The function is glue over three imported libraries ([base64], [io] and
    Pillow's [Image] / [ImageDraw]).  Their operations are the members of the
    class [Imports]; what the function itself does -- the order of the calls,
    the arguments it passes, the mode test, the loop over the coordinates, the
    [try]/[except] with its [print] and re-[raise] -- is written out below in an
    exception monad that also records every call and every printed line.
    Standard output, which [print] writes to, is the class [Stdout]. *)

From Stdlib Require Import ZArith String Ascii Strings.Byte List Bool Lia.
From stdpp Require Import base option list sorting.
Import ListNotations.

Local Open Scope string_scope.
Local Open Scope list_scope.
Local Open Scope Z_scope.

(** ** Python values *)

(** [bytes] objects. *)
Definition bytes : Type := list byte.

(** [ColorValue = Union[str, Tuple[int, int, int], Tuple[int, int, int, int]]]. *)
Inductive ColorValue : Type :=
| ColorStr (name : string)
| ColorRGB (r g b : Z)
| ColorRGBA (r g b a : Z).

(** An exception object, an instance of [Exception]: its class and what
    [str(e)] gives. *)
Record PyException : Type := mkException {
  exc_class : string;
  exc_str : string
}.

(** The outcome of evaluating a Python expression: a value, or an exception
    that is propagating. *)
Inductive result (A : Type) : Type :=
| Return (a : A)
| Raise (e : PyException).
Arguments Return {A} a.
Arguments Raise {A} e.

Definition raised {A} (r : result A) : option PyException :=
  match r with
  | Return _ => None
  | Raise e => Some e
  end.

(** A point [(x, y)] and a box [[(x0, y0), (x1, y1)]]; Python integers are
    unbounded. *)
Definition point : Type := Z * Z.
Definition box : Type := point * point.

(** ** The imported libraries

    The operations of [base64], [io] and Pillow that the function calls, as
    functions of their arguments.  An image object is mutable:
    [ImageDraw.Draw(image)] keeps a reference to [image], [draw.ellipse]
    paints into it, and [image.save] writes the painted object.  The one
    object is threaded through these calls as a value: each call that can
    change it gives its next state. *)

Class Imports : Type := {
  (** a [PIL.Image.Image] object *)
  Image : Type;
  (** [base64.b64decode(s)] *)
  b64decode : string -> result bytes;
  (** [base64.b64encode(b).decode('utf-8')] *)
  b64encode : bytes -> string;
  (** [Image.open(io.BytesIO(data))] *)
  Image_open : bytes -> result Image;
  (** [image.mode] *)
  Image_mode : Image -> string;
  (** [image.convert(mode)] *)
  Image_convert : Image -> string -> result Image;
  (** [ImageDraw.Draw(image)]: the image once the drawing context holds it *)
  ImageDraw_Draw : Image -> result Image;
  (** [draw.ellipse(xy=, fill=, outline=, width=)]: the image after the call *)
  ImageDraw_ellipse :
    Image -> box -> option ColorValue -> ColorValue -> Z -> result Image;
  (** [image.save(buffer, format=fmt); buffer.getvalue()] *)
  Image_save : Image -> string -> result bytes;
  (** [image.getpixel(xy)]: the bands of a pixel, [None] outside the image *)
  Image_getpixel : Image -> point -> option (list Z)
}.

(** ** Standard output

    [print(line)] encodes the line for [sys.stdout] and writes it.  The
    encoding is that of the stream -- UTF-8, or what the locale or
    [PYTHONIOENCODING] says -- and a line that it cannot encode raises
    [UnicodeEncodeError] before anything is written.  Both messages that
    [draw.py] prints are in Chinese, so whether they can be printed depends
    on the stream.  [sys.stdout] is a global of the interpreter: it is no argument of
    the function. *)

Class Stdout : Type := {
  (** writing a line to [sys.stdout]: written, or the exception *)
  stdout_write : string -> result unit
}.

(** ** Observable behaviour *)

Section model.
Context {lib : Imports} {console : Stdout}.

(** A call into an imported library: the object it is made on, where there
    is one, and the arguments the caller chose. *)
Inductive call : Type :=
| call_b64decode (s : string)
| call_Image_open (data : bytes)
| call_convert (image : Image) (mode : string)
| call_Draw (image : Image)
| call_ellipse (draw : Image) (xy : box) (fill : option ColorValue)
    (outline : ColorValue) (width : Z)
| call_save (image : Image) (format : string)
| call_b64encode (data : bytes).

(** What a run leaves behind, oldest first: the library calls it made, each
    with the exception it raised if any, and the lines it printed. *)
Inductive event : Type :=
| Called (c : call) (exc : option PyException)
| Printed (line : string).

(** Computations: they extend the history and return or raise. *)
Definition py (A : Type) : Type := list event -> list event * result A.

#[export] Instance py_ret : MRet py :=
  fun A (a : A) h => (h, Return a).

#[export] Instance py_bind : MBind py :=
  fun A B (k : A -> py B) (m : py A) h =>
    match m h with
    | (h', Return a) => k a h'
    | (h', Raise e) => (h', Raise e)
    end.

(** [raise e] *)
Definition raise {A} (e : PyException) : py A :=
  fun h => (h, Raise e).

(** [try: body except Exception as e: handler] *)
Definition try_except {A} (body : py A) (handler : PyException -> py A) : py A :=
  fun h =>
    match body h with
    | (h', Return a) => (h', Return a)
    | (h', Raise e) => handler e h'
    end.

(** [print(line)]: the line is on standard output, or nothing is and the
    exception of the stream propagates. *)
Definition print (line : string) : py unit :=
  fun h =>
    match stdout_write line with
    | Return _ => (h ++ [Printed line], Return tt)
    | Raise e => (h, Raise e)
    end.

(** A library call: recorded, then its outcome. *)
Definition invoke {A} (c : call) (r : result A) : py A :=
  fun h => (h ++ [Called c (raised r)], r).

(** [for x in xs: body], threading the object the body mutates. *)
Fixpoint for_each {A S} (xs : list A) (body : A -> S -> py S) (s : S) : py S :=
  match xs with
  | [] => mret s
  | x :: xs' => s' ← body x s; for_each xs' body s'
  end.

(** ** The function *)

(** [f"处理图片时发生错误: {e}"] *)
Definition error_message (e : PyException) : string :=
  ("处理图片时发生错误: " ++ exc_str e)%string.

Arguments error_message : simpl never.

Definition bounding_box (x y radius : Z) : box :=
  ((x - radius, y - radius), (x + radius, y + radius)).

Definition draw_circles_on_image_v2
    (base64_image_string : string) (coordinates : list (Z * Z))
    (radius : Z) (fill_color : option ColorValue)
    (outline_color : ColorValue) (outline_width : Z) : py string :=
  try_except
    (image_data ← invoke (call_b64decode base64_image_string)
                         (b64decode base64_image_string);
     image ← invoke (call_Image_open image_data) (Image_open image_data);
     image ← (if negb (String.eqb (Image_mode image) "RGBA")
              then invoke (call_convert image "RGBA")
                          (Image_convert image "RGBA")
              else mret image);
     draw ← invoke (call_Draw image) (ImageDraw_Draw image);
     image ← for_each coordinates
               (fun '(x, y) draw =>
                  let bounding_box := bounding_box x y radius in
                  invoke
                    (call_ellipse draw bounding_box
                       fill_color outline_color outline_width)
                    (ImageDraw_ellipse draw bounding_box
                       fill_color outline_color outline_width))
               draw;
     let image_format := "PNG" in
     byte_data ← invoke (call_save image image_format)
                        (Image_save image image_format);
     new_base64_string ← invoke (call_b64encode byte_data)
                                (Return (b64encode byte_data));
     mret new_base64_string)
    (fun e => print (error_message e);; raise e).

(** The defaults of the optional parameters, from the [def] line. *)
Definition default_radius : Z := 15.
Definition default_fill_color : option ColorValue := Some (ColorStr "red").
Definition default_outline_color : ColorValue := ColorStr "red".
Definition default_outline_width : Z := 1.

(** The optional arguments of a call site: each is passed ([Some]) or left
    out ([None]).  [fill_color=None] is a value that can be passed, so that
    argument has two layers. *)
Record keywords : Type := {
  kw_radius : option Z;
  kw_fill_color : option (option ColorValue);
  kw_outline_color : option ColorValue;
  kw_outline_width : option Z
}.

Definition no_keywords : keywords :=
  {| kw_radius := None; kw_fill_color := None;
     kw_outline_color := None; kw_outline_width := None |}.

(** A call [draw_circles_on_image_v2(s, coordinates, **kw)]: Python binds every
    parameter that was left out to its default, then runs the body. *)
Definition call_draw_circles_on_image_v2
    (base64_image_string : string) (coordinates : list (Z * Z))
    (kw : keywords) : py string :=
  draw_circles_on_image_v2 base64_image_string coordinates
    (default default_radius (kw_radius kw))
    (default default_fill_color (kw_fill_color kw))
    (default default_outline_color (kw_outline_color kw))
    (default default_outline_width (kw_outline_width kw)).

End model.

(** ** The vocabulary of the specification *)

Section notions.
Context {lib : Imports}.

(** The image a base64 string stands for (steps 1 and 2). *)
Definition decode_image (s : string) : result Image :=
  match b64decode s with
  | Return data => Image_open data
  | Raise e => Raise e
  end.

(** The image the function draws on (step 3). *)
Definition normalized (image : Image) : result Image :=
  if negb (String.eqb (Image_mode image) "RGBA")
  then Image_convert image "RGBA"
  else Return image.

(** Pixel-identical images; the same picture also has the same mode. *)
Definition same_pixels (a b : Image) : Prop :=
  forall p, Image_getpixel a p = Image_getpixel b p.

Definition same_picture (a b : Image) : Prop :=
  Image_mode a = Image_mode b /\ same_pixels a b.

(** The pixels of the closed box [[x0, y0, x1, y1]], and the box padded by
    [w] pixels on every side. *)
Definition in_box (b : box) (p : point) : Prop :=
  b.1.1 <= p.1 <= b.2.1 /\ b.1.2 <= p.2 <= b.2.2.

Definition expand (w : Z) (b : box) : box :=
  ((b.1.1 - w, b.1.2 - w), (b.2.1 + w, b.2.2 + w)).

(** The centre of a box, when it has one on the pixel grid. *)
Definition center (b : box) : option point :=
  if Z.even (b.1.1 + b.2.1) && Z.even (b.1.2 + b.2.2)
  then Some ((b.1.1 + b.2.1) / 2, (b.1.2 + b.2.2) / 2)
  else None.

(** Step 4 in the specification's words: a circle is the ellipse inscribed in
    the square [[x - radius, y - radius] x [x + radius, y + radius]], and the
    annotated image has one for each coordinate, in input order. *)
Definition square_around (c : point) (radius : Z) : box :=
  ((c.1 - radius, c.2 - radius), (c.1 + radius, c.2 + radius)).

Definition circle_at (image : Image) (c : point) (radius : Z)
    (fill : option ColorValue) (outline : ColorValue) (width : Z)
    : result Image :=
  ImageDraw_ellipse image (square_around c radius) fill outline width.

Fixpoint with_circles (image : Image) (cs : list point) (radius : Z)
    (fill : option ColorValue) (outline : ColorValue) (width : Z)
    : result Image :=
  match cs with
  | [] => Return image
  | c :: cs' =>
      match circle_at image c radius fill outline width with
      | Return image' => with_circles image' cs' radius fill outline width
      | Raise e => Raise e
      end
  end.

(** The [ellipse] calls step 4 asks for, as (box, fill, outline, width). *)
Definition expected_ellipses (cs : list point) (radius : Z)
    (fill : option ColorValue) (outline : ColorValue) (width : Z)
    : list (box * option ColorValue * ColorValue * Z) :=
  (fun c => (square_around c radius, fill, outline, width)) <$> cs.

(** Pillow's modes that carry an alpha band ([Image.has_transparency_data]
    tests membership in this list). *)
Definition has_alpha_channel (mode : string) : bool :=
  existsb (String.eqb mode) ["LA"; "La"; "PA"; "RGBA"; "RGBa"].

(** Reading a history: the [ellipse] calls with their arguments, the images
    that drawing and encoding calls were made on, the printed lines, and
    whether anything went wrong. *)
Definition ellipse_args (ev : event)
    : option (box * option ColorValue * ColorValue * Z) :=
  match ev with
  | Called (call_ellipse _ xy fill outline width) _ =>
      Some (xy, fill, outline, width)
  | _ => None
  end.

Definition ellipse_calls (evs : list event)
    : list (box * option ColorValue * ColorValue * Z) :=
  omap ellipse_args evs.

Definition drawn_or_encoded (ev : event) : option Image :=
  match ev with
  | Called (call_Draw image) _ => Some image
  | Called (call_ellipse draw _ _ _ _) _ => Some draw
  | Called (call_save image _) _ => Some image
  | _ => None
  end.

Definition is_convert (ev : event) : bool :=
  match ev with
  | Called (call_convert _ _) _ => true
  | _ => false
  end.

(** A stretch of history in which every event is a library call that
    returned: nothing raised, nothing printed. *)
Definition quiet_event (ev : event) : bool :=
  match ev with
  | Called _ None => true
  | _ => false
  end.

Definition quiet (evs : list event) : Prop :=
  forallb quiet_event evs = true.

(** Step 4 as a stretch of history.  [drawn radius fill outline width image
    cs evs r]: started on [image], the [ellipse] calls for the coordinates
    [cs] are [evs], and they leave [r].  Every call is made on the image that
    the call before it returned, so a circle is painted over the circles
    before it; the first call that raises ends the stretch. *)
Inductive drawn (radius : Z) (fill : option ColorValue) (outline : ColorValue)
    (width : Z) : Image -> list point -> list event -> result Image -> Prop :=
| drawn_nil image :
    drawn radius fill outline width image [] [] (Return image)
| drawn_cons image c cs image' evs r :
    ImageDraw_ellipse image (square_around c radius) fill outline width
    = Return image' ->
    drawn radius fill outline width image' cs evs r ->
    drawn radius fill outline width image (c :: cs)
      (Called (call_ellipse image (square_around c radius) fill outline width)
              None :: evs)
      r
| drawn_raise image c cs e :
    ImageDraw_ellipse image (square_around c radius) fill outline width
    = Raise e ->
    drawn radius fill outline width image (c :: cs)
      [Called (call_ellipse image (square_around c radius) fill outline width)
              (Some e)]
      (Raise e).

(** ** What the function relies on

    The contracts of the imported operations that the pixel-level
    properties need.  Each is a documented property of the library, not of this
    repository. *)
Class ImportsSpec : Prop := {
  (** base64 decoding inverts base64 encoding *)
  b64decode_b64encode :
    forall data, b64decode (b64encode data) = Return data;
  (** PNG is lossless for RGBA images, and keeps their mode *)
  open_save_png :
    forall image data,
      Image_mode image = "RGBA" ->
      Image_save image "PNG" = Return data ->
      exists image', Image_open data = Return image' /\
                     same_picture image' image;
  (** [convert] gives an image of the mode asked for *)
  convert_mode :
    forall image mode image',
      Image_convert image mode = Return image' -> Image_mode image' = mode;
  (** creating the drawing context does not change the picture *)
  Draw_same_picture :
    forall image draw,
      ImageDraw_Draw image = Return draw -> same_picture draw image;
  (** drawing keeps the mode *)
  ellipse_mode :
    forall image xy fill outline width image',
      ImageDraw_ellipse image xy fill outline width = Return image' ->
      Image_mode image' = Image_mode image;
  (** an ellipse with a stroke of [width >= 0] touches no pixel outside its
      box padded by [width] *)
  ellipse_frame :
    forall image xy fill outline width image',
      0 <= width ->
      ImageDraw_ellipse image xy fill outline width = Return image' ->
      forall p, ~ in_box (expand width xy) p ->
                Image_getpixel image' p = Image_getpixel image p
}.

End notions.

Arguments ImportsSpec lib : clear implicits.

(** ** The runs of the function

    The events of the drawing loop, the call that the mode test guards, what
    the handler leaves, and the ways a call can go: one constructor of [way]
    for each place where it can stop -- the six library calls that can raise,
    and the [return]. *)

Section runs.
Context {lib : Imports} {console : Stdout}.

(** The handler, entered with [e]: the diagnostic it leaves on standard
    output and the exception that leaves the function.  When the [print]
    raises, nothing is printed and the exception of the [print] propagates
    in place of [e]. *)
Definition diagnostic (e : PyException) : list event :=
  match stdout_write (error_message e) with
  | Return _ => [Printed (error_message e)]
  | Raise _ => []
  end.

Definition propagated (e : PyException) : PyException :=
  match stdout_write (error_message e) with
  | Return _ => e
  | Raise e' => e'
  end.

(** The events of the drawing loop, started on [draw]. *)
Fixpoint loop_events (draw : Image) (cs : list point) (radius : Z)
    (fill : option ColorValue) (outline : ColorValue) (width : Z)
    : list event :=
  match cs with
  | [] => []
  | c :: cs' =>
      let r := circle_at draw c radius fill outline width in
      Called (call_ellipse draw (square_around c radius) fill outline width)
             (raised r)
      :: match r with
         | Return draw' => loop_events draw' cs' radius fill outline width
         | Raise _ => []
         end
  end.

Variables (s : string) (cs : list point) (radius : Z)
  (fill : option ColorValue) (outline : ColorValue) (width : Z).

(** The call that the mode test guards. *)
Definition normalize_events (image : Image) : list event :=
  if negb (String.eqb (Image_mode image) "RGBA")
  then [Called (call_convert image "RGBA") (raised (Image_convert image "RGBA"))]
  else [].

Inductive way : list event -> result string -> Prop :=
| way_b64decode e :
    b64decode s = Raise e ->
    way (Called (call_b64decode s) (Some e) :: diagnostic e)
        (Raise (propagated e))
| way_open data e :
    b64decode s = Return data ->
    Image_open data = Raise e ->
    way ([Called (call_b64decode s) None;
          Called (call_Image_open data) (Some e)] ++ diagnostic e)
        (Raise (propagated e))
| way_convert data image e :
    b64decode s = Return data ->
    Image_open data = Return image ->
    normalized image = Raise e ->
    way ([Called (call_b64decode s) None; Called (call_Image_open data) None]
         ++ normalize_events image ++ diagnostic e)
        (Raise (propagated e))
| way_Draw data image image0 e :
    b64decode s = Return data ->
    Image_open data = Return image ->
    normalized image = Return image0 ->
    ImageDraw_Draw image0 = Raise e ->
    way ([Called (call_b64decode s) None; Called (call_Image_open data) None]
         ++ normalize_events image
         ++ [Called (call_Draw image0) (Some e)] ++ diagnostic e)
        (Raise (propagated e))
| way_ellipse data image image0 draw e :
    b64decode s = Return data ->
    Image_open data = Return image ->
    normalized image = Return image0 ->
    ImageDraw_Draw image0 = Return draw ->
    with_circles draw cs radius fill outline width = Raise e ->
    way ([Called (call_b64decode s) None; Called (call_Image_open data) None]
         ++ normalize_events image
         ++ [Called (call_Draw image0) None]
         ++ loop_events draw cs radius fill outline width
         ++ diagnostic e)
        (Raise (propagated e))
| way_save data image image0 draw image' e :
    b64decode s = Return data ->
    Image_open data = Return image ->
    normalized image = Return image0 ->
    ImageDraw_Draw image0 = Return draw ->
    with_circles draw cs radius fill outline width = Return image' ->
    Image_save image' "PNG" = Raise e ->
    way ([Called (call_b64decode s) None; Called (call_Image_open data) None]
         ++ normalize_events image
         ++ [Called (call_Draw image0) None]
         ++ loop_events draw cs radius fill outline width
         ++ [Called (call_save image' "PNG") (Some e)] ++ diagnostic e)
        (Raise (propagated e))
| way_return data image image0 draw image' byte_data :
    b64decode s = Return data ->
    Image_open data = Return image ->
    normalized image = Return image0 ->
    ImageDraw_Draw image0 = Return draw ->
    with_circles draw cs radius fill outline width = Return image' ->
    Image_save image' "PNG" = Return byte_data ->
    way ([Called (call_b64decode s) None; Called (call_Image_open data) None]
         ++ normalize_events image
         ++ [Called (call_Draw image0) None]
         ++ loop_events draw cs radius fill outline width
         ++ [Called (call_save image' "PNG") None;
             Called (call_b64encode byte_data) None])
        (Return (b64encode byte_data)).

(** A step of the function fails on this input: the library call [c] of the
    step raises [e], every step before it having gone through.  The steps
    are those of the body, in its order: base64 decoding, image decoding, the
    conversion to RGBA, the drawing context, the circles one by one, and the
    PNG encoding. *)
Inductive step_fails : call -> PyException -> Prop :=
| b64decode_fails e :
    b64decode s = Raise e ->
    step_fails (call_b64decode s) e
| Image_open_fails data e :
    b64decode s = Return data ->
    Image_open data = Raise e ->
    step_fails (call_Image_open data) e
| convert_fails data image e :
    b64decode s = Return data ->
    Image_open data = Return image ->
    normalized image = Raise e ->
    step_fails (call_convert image "RGBA") e
| Draw_fails data image image0 e :
    b64decode s = Return data ->
    Image_open data = Return image ->
    normalized image = Return image0 ->
    ImageDraw_Draw image0 = Raise e ->
    step_fails (call_Draw image0) e
| ellipse_fails data image image0 draw cs1 c cs2 image1 e :
    b64decode s = Return data ->
    Image_open data = Return image ->
    normalized image = Return image0 ->
    ImageDraw_Draw image0 = Return draw ->
    cs = cs1 ++ c :: cs2 ->
    with_circles draw cs1 radius fill outline width = Return image1 ->
    ImageDraw_ellipse image1 (square_around c radius) fill outline width
    = Raise e ->
    step_fails
      (call_ellipse image1 (square_around c radius) fill outline width) e
| save_fails data image image0 draw annotated e :
    b64decode s = Return data ->
    Image_open data = Return image ->
    normalized image = Return image0 ->
    ImageDraw_Draw image0 = Return draw ->
    with_circles draw cs radius fill outline width = Return annotated ->
    Image_save annotated "PNG" = Raise e ->
    step_fails (call_save annotated "PNG") e.

End runs.


(** ** A reference implementation of the imports

    A small executable library with the interface above: base64 read as
    Python reads it by default, bitmaps of at most 255 columns with four
    stored bytes per pixel, an uncompressed file format, and an ellipse
    rasterised from its implicit equation; and two standard outputs, one that
    takes every line and one that takes ASCII only.  It shows that the
    contracts of [ImportsSpec] can be met together, and it is what the
    function is run on in the examples. *)

Module Reference.

(** *** base64

    The standard alphabet with [=] padding.  [decode] reads it strictly, as
    RFC 4648 has it: a character outside the alphabet, a length that is not
    a multiple of four, or padding bits that are not zero are an error.
    [decode_text], the [b64decode] of the library, is lenient as Python's
    is: it drops the characters outside the alphabet first. *)

Definition level (b : byte) : Z := Z.of_N (Byte.to_N b).

Definition byte_of (z : Z) : option byte := Byte.of_N (Z.to_N z).

Definition alphabet : list ascii :=
  list_ascii_of_string
    "ABCDEFGHIJKLMNOPQRSTUVWXYZabcdefghijklmnopqrstuvwxyz0123456789+/".

Definition symbol (n : Z) : ascii :=
  default "A"%char (alphabet !! Z.to_nat n).

Fixpoint index_of (c : ascii) (l : list ascii) : option nat :=
  match l with
  | [] => None
  | d :: l' => if Ascii.eqb c d then Some O else S <$> index_of c l'
  end.

Definition symbol_value (c : ascii) : option Z :=
  Z.of_nat <$> index_of c alphabet.

Definition pad : ascii := "="%char.

(** Three bytes make four symbols; one or two last bytes are padded. *)
Fixpoint encode (data : bytes) : string :=
  match data with
  | [] => EmptyString
  | [a] =>
      let n := level a * 16 in
      String (symbol (n / 64)) (String (symbol (n mod 64))
        (String pad (String pad EmptyString)))
  | [a; b] =>
      let n := (level a * 256 + level b) * 4 in
      String (symbol (n / 4096)) (String (symbol (n / 64 mod 64))
        (String (symbol (n mod 64)) (String pad EmptyString)))
  | a :: b :: c :: rest =>
      let n := (level a * 256 + level b) * 256 + level c in
      String (symbol (n / 262144)) (String (symbol (n / 4096 mod 64))
        (String (symbol (n / 64 mod 64)) (String (symbol (n mod 64))
          (encode rest))))
  end.

(** A last group [c1 c2 c3 =], where [c3] may be [=] too. *)
Definition last_group (c1 c2 c3 : ascii) : option bytes :=
  v1 ← symbol_value c1; v2 ← symbol_value c2;
  if Ascii.eqb c3 pad
  then
    (if v2 mod 16 =? 0 then a ← byte_of ((v1 * 64 + v2) / 16); Some [a]
     else None)
  else
    v3 ← symbol_value c3;
    let n := (v1 * 64 + v2) * 64 + v3 in
    if n mod 4 =? 0
    then a ← byte_of (n / 1024); b ← byte_of (n / 4 mod 256); Some [a; b]
    else None.

Definition full_group (c1 c2 c3 c4 : ascii) : option bytes :=
  v1 ← symbol_value c1; v2 ← symbol_value c2;
  v3 ← symbol_value c3; v4 ← symbol_value c4;
  let n := ((v1 * 64 + v2) * 64 + v3) * 64 + v4 in
  a ← byte_of (n / 65536); b ← byte_of (n / 256 mod 256);
  c ← byte_of (n mod 256); Some [a; b; c].

Fixpoint decode (s : string) : option bytes :=
  match s with
  | EmptyString => Some []
  | String c1 (String c2 (String c3 (String c4 rest))) =>
      if Ascii.eqb c4 pad
      then match rest with
           | EmptyString => last_group c1 c2 c3
           | _ => None
           end
      else g ← full_group c1 c2 c3 c4; (g ++.) <$> decode rest
  | _ => None
  end.

(** [base64.b64decode(s)] is called with its default, [validate=False]:
    characters that are neither in the alphabet nor the padding character
    are discarded before the padding check.  What is left is read as
    above. *)
Definition kept (c : ascii) : bool :=
  Ascii.eqb c pad ||
  match symbol_value c with
  | Some _ => true
  | None => false
  end.

Fixpoint discard_foreign (s : string) : string :=
  match s with
  | EmptyString => EmptyString
  | String c rest =>
      if kept c then String c (discard_foreign rest) else discard_foreign rest
  end.

Definition incorrect_padding : PyException :=
  mkException "binascii.Error" "Incorrect padding".

Definition decode_text (s : string) : result bytes :=
  match decode (discard_foreign s) with
  | Some data => Return data
  | None => Raise incorrect_padding
  end.

(** *** Bitmaps *)

Inductive mode : Type := M_L | M_LA | M_RGB | M_RGBA.

Definition mode_name (m : mode) : string :=
  match m with
  | M_L => "L"
  | M_LA => "LA"
  | M_RGB => "RGB"
  | M_RGBA => "RGBA"
  end.

Definition mode_named (s : string) : option mode :=
  if String.eqb s "L" then Some M_L
  else if String.eqb s "LA" then Some M_LA
  else if String.eqb s "RGB" then Some M_RGB
  else if String.eqb s "RGBA" then Some M_RGBA
  else None.

Definition mode_tag (m : mode) : byte :=
  match m with
  | M_L => x00
  | M_LA => x04
  | M_RGB => x02
  | M_RGBA => x06
  end.

Definition tag_mode (t : byte) : option mode :=
  if Byte.eqb t x00 then Some M_L
  else if Byte.eqb t x04 then Some M_LA
  else if Byte.eqb t x02 then Some M_RGB
  else if Byte.eqb t x06 then Some M_RGBA
  else None.

Definition mode_has_alpha (m : mode) : bool :=
  match m with
  | M_LA | M_RGBA => true
  | M_L | M_RGB => false
  end.

(** Four stored bytes per pixel, whatever the mode. *)
Definition pixel : Type := byte * byte * byte * byte.

Record image : Type := mkImage {
  im_mode : mode;
  im_width : byte;
  im_pixels : list pixel
}.

Definition width (im : image) : Z := Z.of_N (Byte.to_N (im_width im)).

Definition bands (m : mode) (p : pixel) : list Z :=
  let '(r, g, b, a) := p in
  match m with
  | M_L => [level r]
  | M_LA => [level r; level a]
  | M_RGB => [level r; level g; level b]
  | M_RGBA => [level r; level g; level b; level a]
  end.

Definition getpixel (im : image) (p : point) : option (list Z) :=
  if (0 <=? p.1) && (p.1 <? width im) && (0 <=? p.2)
  then bands (im_mode im) <$> im_pixels im !! Z.to_nat (p.2 * width im + p.1)
  else None.

Definition opaque (from : mode) (p : pixel) : pixel :=
  let '(r, g, b, a) := p in
  (r, g, b, if mode_has_alpha from then a else xff).

Definition convert (im : image) (m : string) : result image :=
  match mode_named m with
  | Some m' =>
      Return (mkImage m' (im_width im) (opaque (im_mode im) <$> im_pixels im))
  | None => Raise (mkException "ValueError" "conversion not supported")
  end.

(** *** File format *)

Definition strip_signature (data : bytes) : option bytes :=
  match data with
  | s0 :: s1 :: s2 :: s3 :: rest =>
      if Byte.eqb s0 x89 && Byte.eqb s1 x50 && Byte.eqb s2 x4e && Byte.eqb s3 x47
      then Some rest
      else None
  | _ => None
  end.

Definition pixel_bytes (p : pixel) : bytes :=
  let '(r, g, b, a) := p in [r; g; b; a].

Fixpoint parse_pixels (data : bytes) : option (list pixel) :=
  match data with
  | [] => Some []
  | r :: g :: b :: a :: rest => ((r, g, b, a) ::.) <$> parse_pixels rest
  | _ => None
  end.

Definition unidentified : PyException :=
  mkException "PIL.UnidentifiedImageError" "cannot identify image file".

Definition open (data : bytes) : result image :=
  match strip_signature data with
  | Some (t :: w :: rest) =>
      match tag_mode t, parse_pixels rest with
      | Some m, Some px => Return (mkImage m w px)
      | _, _ => Raise unidentified
      end
  | _ => Raise unidentified
  end.

Definition save (im : image) (format : string) : result bytes :=
  if String.eqb format "PNG"
  then Return ([x89; x50; x4e; x47] ++ [mode_tag (im_mode im); im_width im]
               ++ (im_pixels im ≫= pixel_bytes))
  else Raise (mkException "KeyError" format).

(** *** Drawing *)

Definition channel (z : Z) : option byte :=
  if (0 <=? z) && (z <? 256) then Byte.of_N (Z.to_N z) else None.

Definition getrgb (name : string) : option pixel :=
  if String.eqb name "red" then Some (xff, x00, x00, xff)
  else if String.eqb name "green" then Some (x00, x80, x00, xff)
  else if String.eqb name "blue" then Some (x00, x00, xff, xff)
  else if String.eqb name "black" then Some (x00, x00, x00, xff)
  else if String.eqb name "white" then Some (xff, xff, xff, xff)
  else None.

Definition getcolor (c : ColorValue) : option pixel :=
  match c with
  | ColorStr name => getrgb name
  | ColorRGB r g b =>
      r' ← channel r; g' ← channel g; b' ← channel b; Some (r', g', b', xff)
  | ColorRGBA r g b a =>
      r' ← channel r; g' ← channel g; b' ← channel b; a' ← channel a;
      Some (r', g', b', a')
  end.

(** The pixels of the box that the ellipse inscribed in it covers. *)
Definition inside (b : box) (p : point) : bool :=
  let '((x0, y0), (x1, y1)) := b in
  let '(x, y) := p in
  (x0 <=? x) && (x <=? x1) && (y0 <=? y) && (y <=? y1) &&
  ((2 * x - x0 - x1) ^ 2 * (y1 - y0) ^ 2 + (2 * y - y0 - y1) ^ 2 * (x1 - x0) ^ 2
   <=? (x1 - x0) ^ 2 * (y1 - y0) ^ 2).

Definition paint (w : Z) (b : box) (fill : option pixel) (outline : pixel)
    (stroke : Z) (i : nat) (old : pixel) : pixel :=
  let p := (Z.of_nat i mod w, Z.of_nat i / w) in
  if inside b p
  then if inside (expand (- stroke) b) p then default old fill else outline
  else old.

Definition ellipse (im : image) (b : box) (fill : option ColorValue)
    (outline : ColorValue) (stroke : Z) : result image :=
  match getcolor outline, from_option (fun c => Some <$> getcolor c) (Some None) fill with
  | Some ink, Some fill_ink =>
      if (b.2.1 <? b.1.1) || (b.2.2 <? b.1.2)
      then Raise (mkException "ValueError"
                    "x1 must be greater than or equal to x0")
      else Return (mkImage (im_mode im) (im_width im)
                     (imap (paint (width im) b fill_ink ink stroke)
                        (im_pixels im)))
  | _, _ => Raise (mkException "ValueError" "unknown color specifier")
  end.

(** *** Standard output *)

(** A UTF-8 stream takes every line. *)
Definition utf8_stdout : Stdout := {|
  stdout_write := fun _ => Return tt
|}.

(** An ASCII stream -- [PYTHONIOENCODING=ascii], or the C locale of an
    interpreter that does not coerce it -- takes the lines whose characters
    are all below 128. *)
Definition is_ascii (line : string) : bool :=
  forallb (fun c => (N_of_ascii c <? 128)%N) (list_ascii_of_string line).

Definition unencodable : PyException :=
  mkException "UnicodeEncodeError"
    "'ascii' codec can't encode characters: ordinal not in range(128)".

Definition ascii_stdout : Stdout := {|
  stdout_write := fun line => if is_ascii line then Return tt else Raise unencodable
|}.

Definition library : Imports := {|
  Image := image;
  b64decode := decode_text;
  b64encode := encode;
  Image_open := open;
  Image_mode := fun im => mode_name (im_mode im);
  Image_convert := convert;
  ImageDraw_Draw := Return;
  ImageDraw_ellipse := ellipse;
  Image_save := save;
  Image_getpixel := getpixel
|}.

End Reference.

(** ** Valid base64

    Base64 as RFC 4648 defines it, and as [Reference.decode] reads it: groups
    of four characters of the alphabet, the last group padded with [=] where
    the data ends early, and no other character. *)
Definition valid_base64 (s : string) : bool :=
  match Reference.decode s with
  | Some _ => true
  | None => false
  end.

(** ** Sample inputs

    A 5 x 5 RGB bitmap and a 2 x 2 grey bitmap with an alpha band, with what
    the reference library makes of them. *)

Module Sample.
Import Reference.

Definition payload (r : result bytes) : bytes :=
  match r with
  | Return data => data
  | Raise _ => []
  end.

Definition photo : @Image library :=
  mkImage M_RGB x05 (replicate 25 (x10, x20, x30, x00)).

Definition photo_file : bytes := Eval vm_compute in payload (save photo "PNG").

Definition photo_text : string := Eval vm_compute in encode photo_file.

Definition photo_rgba : @Image library :=
  mkImage M_RGBA x05 (replicate 25 (x10, x20, x30, xff)).

Definition photo_rgba_file : bytes :=
  Eval vm_compute in payload (save photo_rgba "PNG").

(** [photo_rgba] with a red dot at (2, 2) inside a black ring of radius 1. *)
Definition ringed : @Image library :=
  let o := (x10, x20, x30, xff) in
  let k := (x00, x00, x00, xff) in
  let r := (xff, x00, x00, xff) in
  mkImage M_RGBA x05
    [o; o; o; o; o;
     o; o; k; o; o;
     o; k; r; k; o;
     o; o; k; o; o;
     o; o; o; o; o].

Definition ringed_file : bytes := Eval vm_compute in payload (save ringed "PNG").

Definition ringed_text : string := Eval vm_compute in encode ringed_file.

Definition grey : @Image library :=
  mkImage M_LA x02 [(x40, x40, x40, x80); (x50, x50, x50, x80);
                    (x60, x60, x60, x80); (x70, x70, x70, x80)].

Definition grey_file : bytes := Eval vm_compute in payload (save grey "PNG").

Definition grey_text : string := Eval vm_compute in encode grey_file.

Definition red : option ColorValue := Some (ColorStr "red").
Definition black : ColorValue := ColorStr "black".

(** [ringed] with a second ring, around (3, 2), over the first. *)
Definition ringed_twice : @Image library :=
  let o := (x10, x20, x30, xff) in
  let k := (x00, x00, x00, xff) in
  let r := (xff, x00, x00, xff) in
  mkImage M_RGBA x05
    [o; o; o; o; o;
     o; o; k; k; o;
     o; k; k; r; k;
     o; o; k; k; o;
     o; o; o; o; o].

Definition ringed_twice_file : bytes :=
  Eval vm_compute in payload (save ringed_twice "PNG").

(** A colour name that the library does not know. *)
Definition unknown_colour : PyException :=
  mkException "ValueError" "unknown color specifier".


End Sample.

(** * Properties *)

(** Two outcomes of one library call are the same outcome. *)
Ltac same_result :=
  repeat match goal with
  | H1 : ?x = Return ?a, H2 : ?x = Return ?b |- _ =>
      assert (a = b) by congruence; subst b; clear H2
  | H1 : ?x = Raise ?a, H2 : ?x = Raise ?b |- _ =>
      assert (a = b) by congruence; subst b; clear H2
  | H1 : ?x = Return _, H2 : ?x = Raise _ |- _ =>
      exfalso; congruence
  end.

(** ** Running computations *)

Section running.
Context {lib : Imports} {console : Stdout}.

Lemma bind_run {A B} (m : py A) (k : A -> py B) h :
  (m ≫= k) h =
  match m h with
  | (h', Return a) => k a h'
  | (h', Raise e) => (h', Raise e)
  end.
Proof. reflexivity. Qed.

Lemma handler_run e h :
  (print (error_message e);; raise e) h
  = (h ++ diagnostic e, Raise (A := string) (propagated e)).
Proof.
  unfold diagnostic, propagated, print. rewrite bind_run.
  destruct (stdout_write (error_message e)); [reflexivity|].
  by rewrite app_nil_r.
Qed.

(** The loop of the function makes the calls of [loop_events] and leaves the
    image of [with_circles]. *)
Lemma for_each_ellipse cs radius fill outline width : forall draw h,
  for_each cs
    (fun '(x, y) draw =>
       let bounding_box := bounding_box x y radius in
       invoke (call_ellipse draw bounding_box fill outline width)
              (ImageDraw_ellipse draw bounding_box fill outline width))
    draw h
  = (h ++ loop_events draw cs radius fill outline width,
     with_circles draw cs radius fill outline width).
Proof.
  induction cs as [|[x y] cs IH]; intros draw h; cbn [for_each].
  - cbn. by rewrite app_nil_r.
  - rewrite bind_run. cbn [loop_events with_circles].
    unfold circle_at, square_around, bounding_box, invoke; cbn [fst snd].
    destruct (ImageDraw_ellipse draw _ fill outline width) as [draw'|e]; cbn.
    + rewrite IH, <- app_assoc. reflexivity.
    + reflexivity.
Qed.

End running.

(** ** Every run goes one of the ways *)

Section ways.
Context {lib : Imports} {console : Stdout}.
Variables (s : string) (cs : list point) (radius : Z)
  (fill : option ColorValue) (outline : ColorValue) (width : Z).

Lemma ways_complete h :
  exists evs r,
    draw_circles_on_image_v2 s cs radius fill outline width h = (h ++ evs, r)
    /\ way s cs radius fill outline width evs r.
Proof.
  unfold draw_circles_on_image_v2, try_except.
  rewrite bind_run. unfold invoke at 1.
  destruct (b64decode s) as [data|e] eqn:Hdata; cbn [raised].
  2:{ eexists _, _. split; [|by apply way_b64decode].
      cbv beta iota. rewrite handler_run, <- ?app_assoc. reflexivity. }
  rewrite bind_run. unfold invoke at 1.
  destruct (Image_open data) as [image|e] eqn:Himage; cbn [raised].
  2:{ eexists _, _. split; [|by eapply way_open].
      cbv beta iota. rewrite handler_run, <- ?app_assoc. reflexivity. }
  rewrite bind_run.
  assert (Hnorm :
    (if negb (String.eqb (Image_mode image) "RGBA")
     then invoke (call_convert image "RGBA") (Image_convert image "RGBA")
     else mret image) ((h ++ [Called (call_b64decode s) None])
                         ++ [Called (call_Image_open data) None])
    = (h ++ [Called (call_b64decode s) None; Called (call_Image_open data) None]
         ++ normalize_events image, normalized image)).
  { unfold normalize_events, normalized, invoke.
    destruct (negb _); cbn; by rewrite <- !app_assoc, ?app_nil_r. }
  rewrite Hnorm. clear Hnorm.
  destruct (normalized image) as [image0|e] eqn:Himage0.
  2:{ eexists _, _. split; [|by eapply way_convert].
      cbv beta iota. rewrite handler_run, <- ?app_assoc. reflexivity. }
  rewrite bind_run. unfold invoke at 1.
  destruct (ImageDraw_Draw image0) as [draw|e] eqn:Hdraw; cbn [raised].
  2:{ eexists _, _. split; [|by eapply way_Draw].
      cbv beta iota. rewrite handler_run, <- ?app_assoc. reflexivity. }
  rewrite bind_run, for_each_ellipse.
  destruct (with_circles draw cs radius fill outline width)
    as [image'|e] eqn:Hloop.
  2:{ eexists _, _. split; [|by eapply way_ellipse].
      cbv beta iota. rewrite handler_run, <- ?app_assoc. reflexivity. }
  cbv zeta. rewrite bind_run. unfold invoke at 1.
  destruct (Image_save image' "PNG") as [byte_data|e] eqn:Hsave; cbn [raised].
  2:{ eexists _, _. split; [|by eapply way_save].
      cbv beta iota. rewrite handler_run, <- ?app_assoc. reflexivity. }
  eexists _, _. split; [|by eapply way_return].
  rewrite bind_run. unfold invoke, mret, py_ret.
  rewrite <- !app_assoc. reflexivity.
Qed.

End ways.

(** ** Histories *)

Section histories.
Context {lib : Imports}.

Lemma quiet_app evs1 evs2 : quiet (evs1 ++ evs2) <-> quiet evs1 /\ quiet evs2.
Proof. unfold quiet. rewrite forallb_app, andb_true_iff. reflexivity. Qed.

Lemma quiet_cons c evs : quiet (Called c None :: evs) <-> quiet evs.
Proof. reflexivity. Qed.

Lemma ellipse_calls_app evs1 evs2 :
  ellipse_calls (evs1 ++ evs2) = ellipse_calls evs1 ++ ellipse_calls evs2.
Proof. apply omap_app. Qed.

Lemma ellipse_calls_normalize image : ellipse_calls (normalize_events image) = [].
Proof. unfold normalize_events. by destruct (negb _). Qed.

(** *** Mode normalisation *)

Lemma normalize_events_Return image image0 :
  normalized image = Return image0 -> quiet (normalize_events image).
Proof.
  unfold normalized, normalize_events.
  destruct (negb _); [intros ->|]; reflexivity.
Qed.

Lemma normalize_events_Raise image e :
  normalized image = Raise e ->
  normalize_events image = [Called (call_convert image "RGBA") (Some e)].
Proof.
  unfold normalized, normalize_events.
  destruct (negb _); [intros ->|]; [reflexivity|discriminate].
Qed.

Lemma normalized_RGBA image :
  Image_mode image = "RGBA" ->
  normalized image = Return image /\ normalize_events image = [].
Proof.
  intros Hmode. unfold normalized, normalize_events.
  by rewrite Hmode.
Qed.

Lemma normalized_not_RGBA image :
  Image_mode image <> "RGBA" ->
  normalized image = Image_convert image "RGBA" /\
  normalize_events image
  = [Called (call_convert image "RGBA") (raised (Image_convert image "RGBA"))].
Proof.
  intros Hmode. unfold normalized, normalize_events.
  apply String.eqb_neq in Hmode. by rewrite Hmode.
Qed.

(** *** The drawing loop *)

Lemma loop_events_Return cs radius fill outline width : forall draw image',
  with_circles draw cs radius fill outline width = Return image' ->
  quiet (loop_events draw cs radius fill outline width).
Proof.
  induction cs as [|c cs IH]; intros draw image'; cbn [with_circles loop_events].
  - reflexivity.
  - destruct (circle_at draw c radius fill outline width) as [d|e]; [|done].
    intros Hrest. apply quiet_cons. by eapply IH.
Qed.

Lemma ellipse_calls_loop_Return cs radius fill outline width : forall draw image',
  with_circles draw cs radius fill outline width = Return image' ->
  ellipse_calls (loop_events draw cs radius fill outline width)
  = expected_ellipses cs radius fill outline width.
Proof.
  induction cs as [|c cs IH]; intros draw image'; cbn [with_circles loop_events].
  - reflexivity.
  - destruct (circle_at draw c radius fill outline width) as [d|e]; [|done].
    intros Hrest. cbn. f_equal. by eapply IH.
Qed.

Lemma ellipse_calls_loop cs radius fill outline width : forall draw,
  exists n,
    ellipse_calls (loop_events draw cs radius fill outline width)
    = take n (expected_ellipses cs radius fill outline width).
Proof.
  induction cs as [|c cs IH]; intros draw; cbn [loop_events].
  - by exists O.
  - destruct (circle_at draw c radius fill outline width) as [d|e].
    + destruct (IH d) as [n Hn]. exists (S n). cbn. f_equal. exact Hn.
    + by exists 1%nat.
Qed.

(** *** Drawing a list in two parts *)

Lemma with_circles_app cs1 cs2 radius fill outline width : forall draw,
  with_circles draw (cs1 ++ cs2) radius fill outline width
  = match with_circles draw cs1 radius fill outline width with
    | Return image => with_circles image cs2 radius fill outline width
    | Raise e => Raise e
    end.
Proof.
  induction cs1 as [|c cs1 IH]; intros draw; cbn [with_circles app].
  - reflexivity.
  - destruct (circle_at draw c radius fill outline width); [apply IH|done].
Qed.

Lemma loop_events_app cs1 cs2 radius fill outline width : forall draw,
  loop_events draw (cs1 ++ cs2) radius fill outline width
  = loop_events draw cs1 radius fill outline width
    ++ match with_circles draw cs1 radius fill outline width with
       | Return image => loop_events image cs2 radius fill outline width
       | Raise _ => []
       end.
Proof.
  induction cs1 as [|c cs1 IH]; intros draw;
    cbn [with_circles loop_events app].
  - reflexivity.
  - destruct (circle_at draw c radius fill outline width); cbn.
    + by rewrite IH.
    + reflexivity.
Qed.

End histories.

(** ** Every run goes exactly one way *)

Section functional.
Context {lib : Imports} {console : Stdout}.

Lemma way_functional s cs radius fill outline width evs1 r1 evs2 r2 :
  way s cs radius fill outline width evs1 r1 ->
  way s cs radius fill outline width evs2 r2 ->
  evs1 = evs2 /\ r1 = r2.
Proof.
  intros Hway1 Hway2.
  destruct Hway1; inversion Hway2; subst; same_result; done.
Qed.

(** A run only appends to the history, and what it appends and what it
    gives do not depend on the history it started from. *)
Lemma run_from_empty s cs radius fill outline width h :
  draw_circles_on_image_v2 s cs radius fill outline width h
  = (h ++ (draw_circles_on_image_v2 s cs radius fill outline width []).1,
     (draw_circles_on_image_v2 s cs radius fill outline width []).2).
Proof.
  destruct (ways_complete s cs radius fill outline width h)
    as (evs & r & -> & Hway).
  destruct (ways_complete s cs radius fill outline width [])
    as (evs0 & r0 & -> & Hway0).
  destruct (way_functional _ _ _ _ _ _ _ _ _ _ Hway Hway0) as [-> ->].
  reflexivity.
Qed.

Lemma run_way s cs radius fill outline width evs r h :
  way s cs radius fill outline width evs r ->
  draw_circles_on_image_v2 s cs radius fill outline width h = (h ++ evs, r).
Proof.
  intros Hway.
  destruct (ways_complete s cs radius fill outline width h)
    as (evs' & r' & -> & Hway').
  by destruct (way_functional _ _ _ _ _ _ _ _ _ _ Hway Hway') as [-> ->].
Qed.

End functional.

(** ** Control flow: what holds whatever the imports do *)

Section control_flow.
Context {lib : Imports} {console : Stdout}.

Lemma ellipse_calls_diagnostic e : ellipse_calls (diagnostic e) = [].
Proof. unfold diagnostic. by destruct (stdout_write _). Qed.

Lemma diagnostic_cases e :
  diagnostic e = [] \/ diagnostic e = [Printed (error_message e)].
Proof. unfold diagnostic. destruct (stdout_write _); [by right|by left]. Qed.

(** The handler calls no library. *)
Lemma diagnostic_no_call (P : event -> Prop) e :
  (forall line, P (Printed line)) -> Forall P (diagnostic e).
Proof.
  intros HP. destruct (diagnostic_cases e) as [->| ->]; by repeat constructor.
Qed.

(** A run in which a step fails: the calls before the failing one returned,
    the failing call is the last one made, the handler follows it. *)
Lemma failed_run s cs radius fill outline width c e h :
  step_fails s cs radius fill outline width c e ->
  exists pre,
    quiet pre /\
    draw_circles_on_image_v2 s cs radius fill outline width h
    = (h ++ pre ++ [Called c (Some e)] ++ diagnostic e, Raise (propagated e)).
Proof.
  intros
    [ e' Hd
    | data e' Hd Ho
    | data image e' Hd Ho Hn
    | data image image0 e' Hd Ho Hn HD
    | data image image0 draw cs1 c1 cs2 image1 e' Hd Ho Hn HD Hcs Hl1 Hc
    | data image image0 draw annotated e' Hd Ho Hn HD Hl Hs ].
  - exists []. split; [done|].
    exact (run_way _ _ _ _ _ _ _ _ h (way_b64decode _ _ _ _ _ _ _ Hd)).
  - exists [Called (call_b64decode s) None]. split; [done|].
    exact (run_way _ _ _ _ _ _ _ _ h (way_open _ _ _ _ _ _ _ _ Hd Ho)).
  - exists [Called (call_b64decode s) None; Called (call_Image_open data) None].
    split; [done|].
    rewrite (run_way _ _ _ _ _ _ _ _ h
               (way_convert _ _ _ _ _ _ _ _ _ Hd Ho Hn)).
    by rewrite (normalize_events_Raise _ _ Hn).
  - exists ([Called (call_b64decode s) None; Called (call_Image_open data) None]
            ++ normalize_events image).
    split; [apply quiet_app; split; [done|by eapply normalize_events_Return]|].
    rewrite (run_way _ _ _ _ _ _ _ _ h
               (way_Draw _ _ _ _ _ _ _ _ _ _ Hd Ho Hn HD)).
    by rewrite <- !app_assoc.
  - assert (Hl : with_circles draw cs radius fill outline width = Raise e').
    { rewrite Hcs, with_circles_app, Hl1. cbn [with_circles].
      unfold circle_at. by rewrite Hc. }
    assert (Hloop :
      loop_events draw cs radius fill outline width
      = loop_events draw cs1 radius fill outline width
        ++ [Called (call_ellipse image1 (square_around c1 radius)
                      fill outline width) (Some e')]).
    { rewrite Hcs, loop_events_app, Hl1. cbn [loop_events].
      unfold circle_at. by rewrite Hc. }
    exists ([Called (call_b64decode s) None; Called (call_Image_open data) None]
            ++ normalize_events image ++ [Called (call_Draw image0) None]
            ++ loop_events draw cs1 radius fill outline width).
    split.
    { rewrite !quiet_app.
      repeat split;
        [by eapply normalize_events_Return|by eapply loop_events_Return]. }
    rewrite (run_way _ _ _ _ _ _ _ _ h
               (way_ellipse _ _ _ _ _ _ _ _ _ _ _ Hd Ho Hn HD Hl)).
    by rewrite Hloop, <- !app_assoc.
  - exists ([Called (call_b64decode s) None; Called (call_Image_open data) None]
            ++ normalize_events image ++ [Called (call_Draw image0) None]
            ++ loop_events draw cs radius fill outline width).
    split.
    { rewrite !quiet_app.
      repeat split;
        [by eapply normalize_events_Return|by eapply loop_events_Return]. }
    rewrite (run_way _ _ _ _ _ _ _ _ h
               (way_save _ _ _ _ _ _ _ _ _ _ _ _ Hd Ho Hn HD Hl Hs)).
    by rewrite <- !app_assoc.
Qed.

(** C2. Let a step of the function fail: its library call [c] -- the base64
    decoding, the image decoding, the conversion, the drawing context, the
    [ellipse] of one of the coordinates or the PNG encoding -- raises [e].
    Then the call returns no string.  The calls before [c] returned, [c] is
    the last library call (no step is retried, no later step runs, the
    coordinates that follow are not drawn), and the handler prints the
    diagnostic built from [e].  If standard output takes the diagnostic, it
    is the last event and the caller gets [e].  If the [print] raises --
    the diagnostic is Chinese text, which not every stream can encode --
    nothing is printed and the caller gets the exception of the [print] in
    place of [e]. *)
Theorem failure_propagates_after_diagnostic
    s cs radius fill outline width c e h :
  step_fails s cs radius fill outline width c e ->
  exists pre,
    quiet pre /\
    match stdout_write (error_message e) with
    | Return _ =>
        draw_circles_on_image_v2 s cs radius fill outline width h
        = (h ++ pre ++ [Called c (Some e); Printed (error_message e)], Raise e)
    | Raise e' =>
        draw_circles_on_image_v2 s cs radius fill outline width h
        = (h ++ pre ++ [Called c (Some e)], Raise e')
    end.
Proof.
  intros (pre & Hpre & Hrun)%(failed_run _ _ _ _ _ _ _ _ h).
  exists pre. split; [done|].
  unfold diagnostic, propagated in Hrun.
  by destruct (stdout_write (error_message e)).
Qed.

(** The loop, read as a stretch of history. *)
Lemma drawn_loop cs radius fill outline width : forall draw,
  drawn radius fill outline width draw cs
    (loop_events draw cs radius fill outline width)
    (with_circles draw cs radius fill outline width).
Proof.
  induction cs as [|c cs IH]; intros draw; cbn [loop_events with_circles].
  - constructor.
  - unfold circle_at.
    destruct (ImageDraw_ellipse draw (square_around c radius) fill outline width)
      as [draw'|e] eqn:Hc; cbn [raised].
    + by eapply drawn_cons.
    + by apply drawn_raise.
Qed.

(** C4. Step 4 of a run.  First, counting calls: the [ellipse] calls of a
    run that returns are, in input order, one for each coordinate [(x, y)],
    on the box [(x - radius, y - radius)] to [(x + radius, y + radius)], with
    the fill, outline and width that were passed; nothing is left out,
    merged or clamped, and a run that raises made the first [n] of them.
    Second, what they are made on: when the run gets as far as the drawing
    context [draw], its [ellipse] calls are one stretch of the history,
    after the [Draw] call, and that stretch is [drawn] from [draw]: the first
    call is made on [draw] and each later call on the image that the call
    before it returned, so circles pile up in input order.  If all of them
    return, the image [annotated] that the last one left is the image that
    [save] is called on next, and when that call gives [png] the run returns
    the text of [png].  If one raises, no further call is made. *)
Theorem one_ellipse_per_coordinate s cs radius fill outline width h :
  (exists evs,
     (draw_circles_on_image_v2 s cs radius fill outline width h).1 = h ++ evs /\
     match (draw_circles_on_image_v2 s cs radius fill outline width h).2 with
     | Return _ =>
         ellipse_calls evs = expected_ellipses cs radius fill outline width
     | Raise _ =>
         exists n,
           ellipse_calls evs
           = take n (expected_ellipses cs radius fill outline width)
     end) /\
  forall data image image0 draw,
    b64decode s = Return data ->
    Image_open data = Return image ->
    normalized image = Return image0 ->
    ImageDraw_Draw image0 = Return draw ->
    exists pre loop r post,
      (draw_circles_on_image_v2 s cs radius fill outline width h).1
      = h ++ pre ++ [Called (call_Draw image0) None] ++ loop ++ post /\
      ellipse_calls pre = [] /\
      drawn radius fill outline width draw cs loop r /\
      ellipse_calls post = [] /\
      match r with
      | Return annotated =>
          ellipse_calls loop = expected_ellipses cs radius fill outline width /\
          (exists rest,
             post = Called (call_save annotated "PNG")
                           (raised (Image_save annotated "PNG")) :: rest) /\
          forall png,
            Image_save annotated "PNG" = Return png ->
            (draw_circles_on_image_v2 s cs radius fill outline width h).2
            = Return (b64encode png)
      | Raise e =>
          post = diagnostic e /\
          (draw_circles_on_image_v2 s cs radius fill outline width h).2
          = Raise (propagated e)
      end.
Proof.
  split.
  - destruct (ways_complete s cs radius fill outline width h)
      as (evs & r & -> & Hway).
    exists evs. split; [reflexivity|]. cbn [snd].
    destruct Hway;
      rewrite ?(ellipse_calls_app [_; _]), ?(ellipse_calls_app [_]),
        ?ellipse_calls_app, ?ellipse_calls_normalize,
        ?ellipse_calls_diagnostic, ?app_nil_r;
      change (ellipse_calls [_; _]) with (@nil (box * option ColorValue
                                                * ColorValue * Z));
      try change (ellipse_calls [_]) with (@nil (box * option ColorValue
                                                 * ColorValue * Z));
      rewrite ?app_nil_l, ?app_nil_r.
    + exists O. apply ellipse_calls_diagnostic.
    + by exists O.
    + by exists O.
    + by exists O.
    + apply ellipse_calls_loop.
    + exists (length cs).
      erewrite ellipse_calls_loop_Return by done.
      rewrite firstn_all2; [done|]. unfold expected_ellipses.
      by rewrite length_fmap.
    + by eapply ellipse_calls_loop_Return.
  - intros data image image0 draw Hd Ho Hn HD.
    exists ([Called (call_b64decode s) None; Called (call_Image_open data) None]
            ++ normalize_events image),
           (loop_events draw cs radius fill outline width),
           (with_circles draw cs radius fill outline width).
    pose proof (drawn_loop cs radius fill outline width draw) as Hdrawn.
    destruct (with_circles draw cs radius fill outline width)
      as [annotated|e] eqn:Hl.
    + destruct (Image_save annotated "PNG") as [png|e] eqn:Hs.
      * exists [Called (call_save annotated "PNG") None;
                Called (call_b64encode png) None].
        rewrite (run_way _ _ _ _ _ _ _ _ h
                   (way_return _ _ _ _ _ _ _ _ _ _ _ _ Hd Ho Hn HD Hl Hs)).
        cbn [fst snd]. rewrite ellipse_calls_app, ellipse_calls_normalize.
        split; [by rewrite <- !app_assoc|]. split; [done|]. split; [done|].
        split; [done|]. split; [by eapply ellipse_calls_loop_Return|].
        split; [by eexists|]. by intros png' [= <-].
      * exists ([Called (call_save annotated "PNG") (Some e)] ++ diagnostic e).
        rewrite (run_way _ _ _ _ _ _ _ _ h
                   (way_save _ _ _ _ _ _ _ _ _ _ _ _ Hd Ho Hn HD Hl Hs)).
        cbn [fst snd]. rewrite ellipse_calls_app, ellipse_calls_normalize.
        split; [by rewrite <- !app_assoc|]. split; [done|]. split; [done|].
        split; [cbn; apply ellipse_calls_diagnostic|].
        split; [by eapply ellipse_calls_loop_Return|].
        split; [by eexists|]. done.
    + exists (diagnostic e).
      rewrite (run_way _ _ _ _ _ _ _ _ h
                 (way_ellipse _ _ _ _ _ _ _ _ _ _ _ Hd Ho Hn HD Hl)).
      cbn [fst snd]. rewrite ellipse_calls_app, ellipse_calls_normalize.
      split; [by rewrite <- !app_assoc|]. split; [done|]. split; [done|].
      split; [apply ellipse_calls_diagnostic|]. done.
Qed.

(** C8. A call that passes no optional argument runs the body with radius
    15, fill ["red"], outline ["red"] and outline width 1; in general each
    parameter is the argument that was passed, or else that default. *)
Theorem omitted_parameters_take_defaults s cs :
  call_draw_circles_on_image_v2 s cs no_keywords
  = draw_circles_on_image_v2 s cs 15 (Some (ColorStr "red")) (ColorStr "red") 1
  /\ forall kw,
       call_draw_circles_on_image_v2 s cs kw
       = draw_circles_on_image_v2 s cs
           (match kw_radius kw with Some r => r | None => 15 end)
           (match kw_fill_color kw with
            | Some fill => fill
            | None => Some (ColorStr "red")
            end)
           (match kw_outline_color kw with
            | Some outline => outline
            | None => ColorStr "red"
            end)
           (match kw_outline_width kw with Some w => w | None => 1 end).
Proof.
  split; [reflexivity|]. intros [[r|] [fill|] [outline|] [w|]]; reflexivity.
Qed.

End control_flow.

(** ** State that is not an argument

    The function reads two things that no argument carries.  One is
    [sys.stdout], through [print]: the class [Stdout].  The other is in the
    text of a library exception: Pillow's [UnidentifiedImageError] names the
    buffer it was given, ["cannot identify image file <_io.BytesIO object at
    0x...>"], the function makes a new [io.BytesIO] in every call, and the
    address of that object is the allocator's choice.  [relabel f lib] is the
    library [lib] at some state of the interpreter: the same operations,
    returning what they return in [lib], and raising [f e] where [lib] raises
    [e]. *)



Section steps.
Context {lib : Imports}.



End steps.

Section states.
Context {lib : Imports} (f : PyException -> PyException).




End states.


(** ** What the contracts of the imports give *)

Section with_contracts.
Context {lib : Imports} {contracts : ImportsSpec lib}.

Lemma same_picture_trans a b c :
  same_picture a b -> same_picture b c -> same_picture a c.
Proof.
  intros [Hm1 Hp1] [Hm2 Hp2]. split; [congruence|].
  intros p. by rewrite Hp1.
Qed.

(** The string the function returns decodes to the picture it encoded. *)
Lemma decode_encoded image data :
  Image_mode image = "RGBA" ->
  Image_save image "PNG" = Return data ->
  exists image_out,
    decode_image (b64encode data) = Return image_out /\
    same_picture image_out image.
Proof.
  intros Hmode Hsave. unfold decode_image.
  rewrite b64decode_b64encode. by apply open_save_png.
Qed.

Lemma normalized_mode image image0 :
  normalized image = Return image0 -> Image_mode image0 = "RGBA".
Proof.
  unfold normalized.
  destruct (String.eqb (Image_mode image) "RGBA") eqn:Hmode; cbn.
  - intros [= <-]. by apply String.eqb_eq.
  - apply convert_mode.
Qed.

Lemma Draw_mode image draw :
  ImageDraw_Draw image = Return draw -> Image_mode draw = Image_mode image.
Proof. intros Hdraw. by apply Draw_same_picture. Qed.

Lemma with_circles_mode cs radius fill outline width : forall draw image',
  with_circles draw cs radius fill outline width = Return image' ->
  Image_mode image' = Image_mode draw.
Proof.
  induction cs as [|c cs IH]; intros draw image'; cbn [with_circles].
  - by intros [= <-].
  - destruct (circle_at draw c radius fill outline width) as [d|e] eqn:Hc;
      [|done].
    intros ->%IH. by eapply ellipse_mode.
Qed.

(** Stroke and fill stay within the padded squares of the circles. *)
Lemma with_circles_frame cs radius fill outline width :
  0 <= width ->
  forall draw image',
    with_circles draw cs radius fill outline width = Return image' ->
    forall p,
      (forall c, c ∈ cs -> ~ in_box (expand width (square_around c radius)) p) ->
      Image_getpixel image' p = Image_getpixel draw p.
Proof.
  intros Hwidth.
  induction cs as [|c cs IH]; intros draw image'; cbn [with_circles].
  - by intros [= <-].
  - destruct (circle_at draw c radius fill outline width) as [d|e] eqn:Hc;
      [|done].
    intros Hrest p Hout. rewrite (IH _ _ Hrest).
    + eapply ellipse_frame; [done|exact Hc|]. apply Hout. by left.
    + intros c' Hc'. apply Hout. by right.
Qed.

(** Every image that the loop draws on is in the mode it started in. *)
Lemma loop_events_mode cs radius fill outline width : forall draw,
  Forall (fun ev => forall image, drawn_or_encoded ev = Some image ->
                                  Image_mode image = Image_mode draw)
         (loop_events draw cs radius fill outline width).
Proof.
  induction cs as [|c cs IH]; intros draw; cbn [loop_events].
  - constructor.
  - constructor; [by intros image [= <-]|].
    destruct (circle_at draw c radius fill outline width) as [d|e] eqn:Hc;
      [|constructor].
    apply ellipse_mode in Hc. rewrite <- Hc. apply IH.
Qed.

Lemma loop_events_no_convert cs radius fill outline width : forall draw,
  Forall (fun ev => is_convert ev = false)
         (loop_events draw cs radius fill outline width).
Proof.
  induction cs as [|c cs IH]; intros draw; cbn [loop_events].
  - constructor.
  - constructor; [done|]. destruct (circle_at _ _ _ _ _ _); [apply IH|constructor].
Qed.

End with_contracts.

Lemma square_around_center c radius : center (square_around c radius) = Some c.
Proof.
  destruct c as [x y]. unfold center, square_around; cbn [fst snd].
  replace (x - radius + (x + radius)) with (2 * x) by lia.
  replace (y - radius + (y + radius)) with (2 * y) by lia.
  rewrite !Z.even_mul. cbn [Z.even orb andb].
  rewrite !(Z.mul_comm 2), !Z.div_mul by lia. reflexivity.
Qed.

(** ** Decoding and pixels *)

Section pixels.
Context {lib : Imports} {console : Stdout}.

(** C3. If [b64decode] raises on the string, or returns bytes on which
    [Image.open] raises, the call returns no string: it raises.  It makes no
    call that converts, draws or encodes, and its handler prints the
    diagnostic of that exception [e]: when standard output takes it, it is
    the last event and the caller gets [e]; when the [print] raises, nothing
    is printed and the caller gets the exception of the [print]. *)
Theorem invalid_input_is_rejected s cs radius fill outline width e h :
  b64decode s = Raise e \/
  (exists data, b64decode s = Return data /\ Image_open data = Raise e) ->
  exists evs,
    omap drawn_or_encoded evs = [] /\
    Forall (fun ev => is_convert ev = false) evs /\
    match stdout_write (error_message e) with
    | Return _ =>
        draw_circles_on_image_v2 s cs radius fill outline width h
        = (h ++ evs ++ [Printed (error_message e)], Raise e)
    | Raise e' =>
        draw_circles_on_image_v2 s cs radius fill outline width h
        = (h ++ evs, Raise e')
    end.
Proof.
  intros [Hdecode|(data & Hdecode & Hopen)].
  - rewrite (run_way _ _ _ _ _ _ _ _ h (way_b64decode _ _ _ _ _ _ _ Hdecode)).
    exists [Called (call_b64decode s) (Some e)].
    split; [done|]. split; [by repeat constructor|].
    unfold diagnostic, propagated.
    by destruct (stdout_write (error_message e)).
  - rewrite (run_way _ _ _ _ _ _ _ _ h
               (way_open _ _ _ _ _ _ _ _ Hdecode Hopen)).
    exists [Called (call_b64decode s) None;
            Called (call_Image_open data) (Some e)].
    split; [done|]. split; [by repeat constructor|].
    unfold diagnostic, propagated.
    by destruct (stdout_write (error_message e)).
Qed.

Context {contracts : ImportsSpec lib}.

(** The picture in the returned text, when every step succeeds. *)
Lemma annotated_output cs radius fill outline width image image0 draw annotated png :
  normalized image = Return image0 ->
  ImageDraw_Draw image0 = Return draw ->
  with_circles draw cs radius fill outline width = Return annotated ->
  Image_save annotated "PNG" = Return png ->
  exists image_out,
    decode_image (b64encode png) = Return image_out /\
    Image_mode image_out = "RGBA" /\
    same_picture image_out annotated /\
    (0 <= width ->
     forall p,
       (forall c, c ∈ cs ->
                  ~ in_box (expand width (square_around c radius)) p) ->
       Image_getpixel image_out p = Image_getpixel image0 p).
Proof.
  intros Himage0 Hdraw Hloop Hsave.
  assert (Hmode : Image_mode annotated = "RGBA").
  { rewrite (with_circles_mode _ _ _ _ _ _ _ Hloop), (Draw_mode _ _ Hdraw).
    by eapply normalized_mode. }
  destruct (decode_encoded _ _ Hmode Hsave) as (image_out & Hout & Hsame).
  exists image_out. split; [done|]. split; [|split; [done|]].
  - destruct Hsame as [-> _]. done.
  - intros Hwidth p Hp. destruct Hsame as [_ ->].
    rewrite (with_circles_frame _ _ _ _ _ Hwidth _ _ Hloop p Hp).
    by apply Draw_same_picture.
Qed.

(** C1. Let the string decode to [image], and let the steps on the way
    succeed: [image0] is [image] in RGBA, [draw] is [image0] held by the
    drawing context, [annotated] is [draw] with one circle for each
    coordinate, drawn in input order, and [annotated] encodes as PNG to
    [png].  Then the call returns the base64 text of [png] and prints nothing,
    and that text decodes to an RGBA picture identical to [annotated].
    Every circle is centred at its coordinate, and for a stroke width that
    is not negative a pixel outside all the padded squares of the circles is
    as in the input image. *)
Theorem returns_annotated_image
    s cs radius fill outline width h data image image0 draw annotated png :
  b64decode s = Return data ->
  Image_open data = Return image ->
  normalized image = Return image0 ->
  ImageDraw_Draw image0 = Return draw ->
  with_circles draw cs radius fill outline width = Return annotated ->
  Image_save annotated "PNG" = Return png ->
  (exists evs,
     draw_circles_on_image_v2 s cs radius fill outline width h
     = (h ++ evs, Return (b64encode png)) /\ quiet evs) /\
  (exists image_out,
     decode_image (b64encode png) = Return image_out /\
     Image_mode image_out = "RGBA" /\
     same_picture image_out annotated /\
     (0 <= width ->
      forall p,
        (forall c, c ∈ cs ->
                   ~ in_box (expand width (square_around c radius)) p) ->
        Image_getpixel image_out p = Image_getpixel image0 p)) /\
  (forall c, c ∈ cs -> center (square_around c radius) = Some c).
Proof.
  intros Hdata Himage Himage0 Hdraw Hloop Hsave.
  split; [|split].
  - eexists. split.
    + apply run_way. by eapply way_return.
    + apply normalize_events_Return in Himage0.
      apply loop_events_Return in Hloop. by rewrite !quiet_app.
  - by eapply annotated_output.
  - intros c _. apply square_around_center.
Qed.


End pixels.

Lemma no_alpha_not_RGBA mode : has_alpha_channel mode = false -> mode <> "RGBA".
Proof. by intros Halpha ->. Qed.

(** ** Modes *)

Section modes.
Context {lib : Imports} {contracts : ImportsSpec lib} {console : Stdout}.

(** C6. With no coordinates the call makes no [ellipse] call: when the input
    decodes and the RGBA image encodes, it returns the base64 text of the PNG
    encoding of the input image in RGBA.  That text decodes to a picture
    identical to the input in RGBA, and so to what any PNG re-encoding of
    that image decodes to. *)
Theorem empty_coordinates_reencode_the_input
    s radius fill outline width h data image image0 draw png :
  b64decode s = Return data ->
  Image_open data = Return image ->
  normalized image = Return image0 ->
  ImageDraw_Draw image0 = Return draw ->
  Image_save draw "PNG" = Return png ->
  draw_circles_on_image_v2 s [] radius fill outline width h
  = (h ++ [Called (call_b64decode s) None; Called (call_Image_open data) None]
       ++ normalize_events image
       ++ [Called (call_Draw image0) None; Called (call_save draw "PNG") None;
           Called (call_b64encode png) None],
     Return (b64encode png)) /\
  exists image_out,
    decode_image (b64encode png) = Return image_out /\
    same_picture image_out image0 /\
    forall png0 reference,
      Image_save image0 "PNG" = Return png0 ->
      Image_open png0 = Return reference ->
      same_pixels image_out reference.
Proof.
  intros Hdata Himage Himage0 Hdraw Hsave. split.
  - exact (run_way _ _ _ _ _ _ _ _ h
             (way_return s [] radius fill outline width _ _ _ _ _ _
                Hdata Himage Himage0 Hdraw eq_refl Hsave)).
  - pose proof (normalized_mode _ _ Himage0) as Hmode0.
    assert (Hmode : Image_mode draw = "RGBA")
      by by rewrite (Draw_mode _ _ Hdraw).
    destruct (decode_encoded _ _ Hmode Hsave) as (image_out & Hout & Hsame).
    assert (Hsame0 : same_picture image_out image0).
    { eapply same_picture_trans; [exact Hsame|]. by apply Draw_same_picture. }
    exists image_out. split; [done|]. split; [done|].
    intros png0 reference Hsave0 Hopen0.
    destruct (open_save_png _ _ Hmode0 Hsave0) as (image' & Hopen' & Hsame').
    assert (image' = reference) as -> by congruence.
    intros p. destruct Hsame0 as [_ ->]. destruct Hsame' as [_ ->]. done.
Qed.

(** C7. If the decoded image is in a mode without an alpha band, the third
    call of the run, before any drawing call, is [convert] to RGBA.  When the
    call returns, the image it encoded is in RGBA, it was saved with format
    PNG, and the returned text decodes to an RGBA picture identical to it,
    alpha band included. *)
Theorem alpha_channel_added_and_kept
    s cs radius fill outline width h data image :
  b64decode s = Return data ->
  Image_open data = Return image ->
  has_alpha_channel (Image_mode image) = false ->
  exists evs,
    (draw_circles_on_image_v2 s cs radius fill outline width h).1
    = h ++ [Called (call_b64decode s) None; Called (call_Image_open data) None;
            Called (call_convert image "RGBA")
                   (raised (Image_convert image "RGBA"))] ++ evs /\
    Forall (fun ev => is_convert ev = false) evs /\
    match (draw_circles_on_image_v2 s cs radius fill outline width h).2 with
    | Return out =>
        exists pre annotated png image_out,
          evs = pre ++ [Called (call_save annotated "PNG") None;
                        Called (call_b64encode png) None] /\
          out = b64encode png /\
          decode_image out = Return image_out /\
          Image_mode image_out = "RGBA" /\
          has_alpha_channel (Image_mode image_out) = true /\
          same_picture image_out annotated
    | Raise _ => True
    end.
Proof.
  intros Hdata Himage Halpha%no_alpha_not_RGBA.
  destruct (normalized_not_RGBA _ Halpha) as [Hnorm Hevents].
  destruct (ways_complete s cs radius fill outline width h)
    as (evs & r & -> & Hway).
  cbn [fst snd].
  destruct Hway as
    [ e Hd
    | data' e Hd Ho
    | data' image' e Hd Ho Hn
    | data' image' image0 e Hd Ho Hn HD
    | data' image' image0 draw e Hd Ho Hn HD Hl
    | data' image' image0 draw annotated e Hd Ho Hn HD Hl Hs
    | data' image' image0 draw annotated png Hd Ho Hn HD Hl Hs ];
    same_result; rewrite ?Hevents.
  - exists (diagnostic e). split; [reflexivity|]. split; [|done].
    by apply diagnostic_no_call.
  - exists ([Called (call_Draw image0) (Some e)] ++ diagnostic e).
    split; [reflexivity|]. split; [|done].
    apply Forall_cons. split; [done|]. by apply diagnostic_no_call.
  - eexists. split; [reflexivity|]. split; [|done].
    apply Forall_cons. split; [done|]. apply Forall_app. split.
    + apply loop_events_no_convert.
    + by apply diagnostic_no_call.
  - eexists. split; [reflexivity|]. split; [|done].
    apply Forall_cons. split; [done|]. apply Forall_app. split.
    + apply loop_events_no_convert.
    + apply Forall_cons. split; [done|]. by apply diagnostic_no_call.
  - destruct (annotated_output cs radius fill outline width
                _ _ _ _ _ Hn HD Hl Hs)
      as (image_out & Hout & Hmode & Hsame & _).
    eexists. split; [reflexivity|]. split.
    + apply Forall_cons. split; [done|]. apply Forall_app. split.
      * apply loop_events_no_convert.
      * by repeat constructor.
    + exists (Called (call_Draw image0) None
              :: loop_events draw cs radius fill outline width),
             annotated, png, image_out.
      rewrite Hmode. done.
Qed.

(** C10. After the two decoding calls, a [convert] to RGBA is made exactly
    when the mode of the decoded image is not ["RGBA"] -- whether or not that
    mode has an alpha band -- and no [convert] is made later.  Every image
    that a later call draws on or encodes is in mode ["RGBA"]. *)
Theorem converted_unless_RGBA s cs radius fill outline width h data image :
  b64decode s = Return data ->
  Image_open data = Return image ->
  exists pre evs,
    (draw_circles_on_image_v2 s cs radius fill outline width h).1
    = h ++ [Called (call_b64decode s) None; Called (call_Image_open data) None]
        ++ pre ++ evs /\
    (Image_mode image = "RGBA" -> pre = []) /\
    (Image_mode image <> "RGBA" ->
     pre = [Called (call_convert image "RGBA")
                   (raised (Image_convert image "RGBA"))]) /\
    Forall (fun ev => is_convert ev = false) evs /\
    Forall (fun ev => forall im, drawn_or_encoded ev = Some im ->
                                 Image_mode im = "RGBA") evs.
Proof.
  intros Hdata Himage.
  destruct (ways_complete s cs radius fill outline width h)
    as (evs & r & -> & Hway).
  cbn [fst].
  destruct Hway as
    [ e Hd
    | data' e Hd Ho
    | data' image' e Hd Ho Hn
    | data' image' image0 e Hd Ho Hn HD
    | data' image' image0 draw e Hd Ho Hn HD Hl
    | data' image' image0 draw annotated e Hd Ho Hn HD Hl Hs
    | data' image' image0 draw annotated png Hd Ho Hn HD Hl Hs ];
    same_result;
    try (destruct (diagnostic_cases e) as [Hdiag|Hdiag]; rewrite Hdiag;
         clear Hdiag);
    exists (normalize_events image); eexists;
    (split; [reflexivity|]);
    (split; [by intros Hmode; apply normalized_RGBA|]);
    (split; [by intros Hmode; apply normalized_not_RGBA|]);
    try (apply normalized_mode in Hn);
    try (apply Draw_mode in HD);
    try (apply with_circles_mode in Hl);
    (split;
     repeat first [apply Forall_nil_2 | apply Forall_cons_2 | apply Forall_app_2]);
    try done;
    try apply loop_events_no_convert;
    try (intros im [= <-]; congruence).
  all: eapply Forall_impl; [apply loop_events_mode|]; cbn.
  all: intros ev Hev im ->%Hev; congruence.
Qed.

End modes.

(** ** The reference implementation meets the contracts *)

Module ReferenceFacts.
Import Reference.

#[local] Ltac Zify.zify_post_hook ::= Z.to_euclidean_division_equations.

Lemma symbol_value_symbol n : 0 <= n < 64 -> symbol_value (symbol n) = Some n.
Proof.
  intros Hn.
  assert (Hall : forallb (fun k => match symbol_value (symbol (Z.of_nat k)) with
                                   | Some v => Z.eqb v (Z.of_nat k)
                                   | None => false
                                   end) (seq 0 64) = true) by (vm_compute; reflexivity).
  rewrite forallb_forall in Hall.
  specialize (Hall (Z.to_nat n)). rewrite Z2Nat.id in Hall by lia.
  destruct (symbol_value (symbol n)) as [v|].
  - f_equal. apply Z.eqb_eq, Hall, in_seq. lia.
  - exfalso. assert (false = true); [|done]. apply Hall, in_seq. lia.
Qed.

Lemma symbol_not_pad n : 0 <= n < 64 -> Ascii.eqb (symbol n) pad = false.
Proof.
  intros Hn.
  assert (Hall : forallb (fun k => negb (Ascii.eqb (symbol (Z.of_nat k)) pad))
                         (seq 0 64) = true) by (vm_compute; reflexivity).
  rewrite forallb_forall in Hall.
  specialize (Hall (Z.to_nat n)). rewrite Z2Nat.id in Hall by lia.
  apply negb_true_iff, Hall, in_seq. lia.
Qed.

Lemma level_range b : 0 <= level b < 256.
Proof. unfold level. pose proof (Byte.to_N_bounded b). lia. Qed.

Lemma byte_of_level b : byte_of (level b) = Some b.
Proof. unfold byte_of, level. rewrite N2Z.id. apply Byte.of_to_N. Qed.

Lemma full_group_encode a b c :
  let n := (level a * 256 + level b) * 256 + level c in
  full_group (symbol (n / 262144)) (symbol (n / 4096 mod 64))
             (symbol (n / 64 mod 64)) (symbol (n mod 64))
  = Some [a; b; c].
Proof.
  intros n. assert (Hn : n = (level a * 256 + level b) * 256 + level c)
    by reflexivity. clearbody n.
  pose proof (level_range a). pose proof (level_range b).
  pose proof (level_range c).
  unfold full_group.
  rewrite !symbol_value_symbol by lia. cbn.
  replace (((n / 262144 * 64 + n / 4096 mod 64) * 64 + n / 64 mod 64) * 64
           + n mod 64) with n by lia.
  replace (n / 65536) with (level a) by lia.
  replace (n / 256 mod 256) with (level b) by lia.
  replace (n mod 256) with (level c) by lia.
  rewrite !byte_of_level. reflexivity.
Qed.

Lemma last_group_encode_2 a b :
  let n := (level a * 256 + level b) * 4 in
  last_group (symbol (n / 4096)) (symbol (n / 64 mod 64)) (symbol (n mod 64))
  = Some [a; b].
Proof.
  intros n. assert (Hn : n = (level a * 256 + level b) * 4)
    by reflexivity. clearbody n.
  pose proof (level_range a). pose proof (level_range b).
  unfold last_group.
  rewrite !symbol_value_symbol by lia. cbn.
  rewrite symbol_not_pad by lia. cbn.
  replace ((n / 4096 * 64 + n / 64 mod 64) * 64 + n mod 64) with n by lia.
  replace (n mod 4 =? 0) with true by (symmetry; apply Z.eqb_eq; lia).
  replace (n / 1024) with (level a) by lia.
  replace (n / 4 mod 256) with (level b) by lia.
  rewrite !byte_of_level. reflexivity.
Qed.

Lemma last_group_encode_1 a :
  let n := level a * 16 in
  last_group (symbol (n / 64)) (symbol (n mod 64)) pad = Some [a].
Proof.
  intros n. assert (Hn : n = level a * 16) by reflexivity. clearbody n.
  pose proof (level_range a).
  unfold last_group.
  rewrite !symbol_value_symbol by lia. cbn.
  replace (n mod 64 mod 16 =? 0) with true by (symmetry; apply Z.eqb_eq; lia).
  replace ((n / 64 * 64 + n mod 64) / 16) with (level a) by lia.
  rewrite !byte_of_level. reflexivity.
Qed.

Lemma bytes_by_threes (P : bytes -> Prop) :
  P [] -> (forall a, P [a]) -> (forall a b, P [a; b]) ->
  (forall a b c rest, P rest -> P (a :: b :: c :: rest)) ->
  forall data, P data.
Proof.
  intros H0 H1 H2 H3 data.
  assert (H : P data /\ (forall a, P (a :: data))
              /\ (forall a b, P (a :: b :: data))).
  { induction data as [|c data (IH0 & IH1 & IH2)]; [by auto|].
    split; [apply IH1|]. split; [intros a; apply IH2|].
    intros a b. by apply H3. }
  apply H.
Qed.

Lemma decode_encode data : decode (encode data) = Some data.
Proof.
  induction data as [|a|a b|a b c rest IH] using bytes_by_threes.
  - reflexivity.
  - cbn [encode decode]. rewrite Ascii.eqb_refl. apply last_group_encode_1.
  - cbn [encode decode]. rewrite Ascii.eqb_refl. apply last_group_encode_2.
  - cbn [encode decode].
    pose proof (level_range a). pose proof (level_range b).
    pose proof (level_range c).
    rewrite symbol_not_pad by lia.
    rewrite full_group_encode. cbn. by rewrite IH.
Qed.

Lemma kept_symbol n : 0 <= n < 64 -> kept (symbol n) = true.
Proof.
  intros Hn. unfold kept. rewrite symbol_value_symbol by done.
  apply orb_true_r.
Qed.

(** Nothing of an encoding is discarded. *)
Lemma discard_foreign_encode data : discard_foreign (encode data) = encode data.
Proof.
  induction data as [|a|a b|a b c rest IH] using bytes_by_threes.
  - reflexivity.
  - pose proof (level_range a).
    cbn [encode discard_foreign]. rewrite !kept_symbol by lia. reflexivity.
  - pose proof (level_range a). pose proof (level_range b).
    cbn [encode discard_foreign]. rewrite !kept_symbol by lia. reflexivity.
  - pose proof (level_range a). pose proof (level_range b).
    pose proof (level_range c).
    cbn [encode discard_foreign]. rewrite !kept_symbol by lia.
    by rewrite IH.
Qed.

Lemma tag_mode_tag m : tag_mode (mode_tag m) = Some m.
Proof. by destruct m. Qed.

Lemma parse_pixels_bytes px : parse_pixels (px ≫= pixel_bytes) = Some px.
Proof.
  induction px as [|[[[r g] b] a] px IH]; [reflexivity|].
  cbn. cbn in IH. by rewrite IH.
Qed.

Lemma open_save im data : save im "PNG" = Return data -> open data = Return im.
Proof.
  destruct im as [m w px]. unfold save. cbn. intros [= <-].
  unfold open. cbn. by rewrite tag_mode_tag, parse_pixels_bytes.
Qed.

Lemma mode_named_name s m : mode_named s = Some m -> mode_name m = s.
Proof.
  unfold mode_named.
  repeat (destruct (String.eqb s _) eqn:Hs;
          [apply String.eqb_eq in Hs; by intros [= <-]|clear Hs]).
  done.
Qed.

Lemma ellipse_paints im b fill outline stroke im' :
  ellipse im b fill outline stroke = Return im' ->
  exists fill_ink ink,
    im' = mkImage (im_mode im) (im_width im)
            (imap (paint (width im) b fill_ink ink stroke) (im_pixels im)).
Proof.
  unfold ellipse.
  destruct (getcolor outline) as [ink|]; [|done].
  destruct (from_option _ _ fill) as [fill_ink|]; [|done].
  destruct (_ || _); [done|]. intros [= <-]. by eexists _, _.
Qed.

Lemma inside_in_box b p : inside b p = true -> in_box b p.
Proof.
  destruct b as [[x0 y0] [x1 y1]], p as [x y]. unfold inside, in_box. cbn.
  rewrite !andb_true_iff, !Z.leb_le. lia.
Qed.

Lemma in_box_expand w b p : 0 <= w -> in_box b p -> in_box (expand w b) p.
Proof.
  destruct b as [[x0 y0] [x1 y1]], p as [x y]. unfold in_box, expand. cbn. lia.
Qed.

Lemma index_column w x y :
  0 <= x < w -> 0 <= y -> Z.of_nat (Z.to_nat (y * w + x)) mod w = x.
Proof.
  intros Hx Hy. rewrite Z2Nat.id by nia.
  rewrite Z.add_comm, Z_mod_plus_full. by apply Z.mod_small.
Qed.

Lemma index_row w x y :
  0 <= x < w -> 0 <= y -> Z.of_nat (Z.to_nat (y * w + x)) / w = y.
Proof.
  intros Hx Hy. rewrite Z2Nat.id by nia.
  rewrite Z.add_comm, Z_div_plus_full by lia.
  rewrite Z.div_small by done. lia.
Qed.

Lemma ellipse_keeps_outside im b fill outline stroke im' p :
  0 <= stroke ->
  ellipse im b fill outline stroke = Return im' ->
  ~ in_box (expand stroke b) p ->
  getpixel im' p = getpixel im p.
Proof.
  intros Hstroke (fill_ink & ink & ->)%ellipse_paints Hout.
  unfold getpixel, width. cbn [im_mode im_width im_pixels].
  fold (width im).
  destruct ((0 <=? p.1) && (p.1 <? width im) && (0 <=? p.2)) eqn:Hin; [|done].
  apply andb_true_iff in Hin as [[Hx0 Hx1]%andb_true_iff Hy].
  apply Z.leb_le in Hx0, Hy. apply Z.ltb_lt in Hx1.
  rewrite list_lookup_imap.
  destruct (im_pixels im !! Z.to_nat (p.2 * width im + p.1)) as [old|]; [|done].
  cbn. f_equal. f_equal. unfold paint.
  rewrite index_column, index_row by done.
  destruct (inside b (p.1, p.2)) eqn:Hinside; [|done].
  exfalso. apply Hout, in_box_expand, inside_in_box; [done|].
  by destruct p.
Qed.

Lemma contracts : ImportsSpec library.
Proof.
  split.
  - intros data. cbn. unfold decode_text.
    by rewrite discard_foreign_encode, decode_encode.
  - intros image data _ Hsave. exists image. split; [|done].
    by apply open_save.
  - intros image mode image'. cbn. unfold convert.
    destruct (mode_named mode) as [m|] eqn:Hm; [|done].
    intros [= <-]. cbn. by apply mode_named_name.
  - by intros image draw [= <-].
  - intros image xy fill outline width image' (f & o & ->)%ellipse_paints.
    reflexivity.
  - intros image xy fill outline width image' Hwidth Hellipse p Hout.
    by eapply ellipse_keeps_outside.
Qed.

End ReferenceFacts.

(** ** The function on the sample inputs *)

Section samples.
Import Sample.
#[local] Existing Instance Reference.library.
#[local] Existing Instance ReferenceFacts.contracts.
#[local] Existing Instance Reference.utf8_stdout.

(** A colour that the library does not know: the first [ellipse] call
    raises, the diagnostic is printed and the second coordinate is not
    drawn.  And text that is not base64, on an ASCII standard output. *)
Lemma failure_propagates_after_diagnostic_witness :
  (exists pre,
     quiet pre /\
     draw_circles_on_image_v2 photo_text [(2, 2); (3, 3)] 1
       (Some (ColorStr "rde")) black 1 []
     = ([] ++ pre ++ [Called (call_ellipse photo_rgba ((1, 1), (3, 3))
                                (Some (ColorStr "rde")) black 1)
                             (Some unknown_colour);
                      Printed (error_message unknown_colour)],
        Raise unknown_colour)) /\
  (exists pre,
     quiet pre /\
     draw_circles_on_image_v2 (console := Reference.ascii_stdout)
       "not base64!" [(2, 2)] 1 red black 1 []
     = ([] ++ pre ++ [Called (call_b64decode "not base64!")
                             (Some Reference.incorrect_padding)],
        Raise Reference.unencodable)).
Proof.
  split.
  - assert (Hfails :
      step_fails photo_text [(2, 2); (3, 3)] 1 (Some (ColorStr "rde")) black 1
        (call_ellipse photo_rgba (square_around (2, 2) 1)
           (Some (ColorStr "rde")) black 1)
        unknown_colour).
    { apply (ellipse_fails _ _ _ _ _ _ photo_file photo photo_rgba photo_rgba
               [] (2, 2) [(3, 3)] photo_rgba);
        reflexivity. }
    exact (failure_propagates_after_diagnostic
             photo_text [(2, 2); (3, 3)] 1 (Some (ColorStr "rde")) black 1 _
             unknown_colour [] Hfails).
  - assert (Hfails :
      step_fails "not base64!" [(2, 2)] 1 red black 1
        (call_b64decode "not base64!") Reference.incorrect_padding).
    { apply b64decode_fails. reflexivity. }
    exact (failure_propagates_after_diagnostic
             (console := Reference.ascii_stdout)
             "not base64!" [(2, 2)] 1 red black 1 _
             Reference.incorrect_padding [] Hfails).
Defined.

(** The base64 decoding fails, the [print] of the diagnostic raises on an
    ASCII standard output: nothing is printed, and the caller gets the
    [UnicodeEncodeError] and not the exception of the step. *)
Lemma diagnostic_lost_on_ascii_stdout :
  step_fails "not base64!" [(2, 2)] 1 red black 1
    (call_b64decode "not base64!") Reference.incorrect_padding /\
  draw_circles_on_image_v2 (console := Reference.ascii_stdout)
    "not base64!" [(2, 2)] 1 red black 1 []
  = ([Called (call_b64decode "not base64!") (Some Reference.incorrect_padding)],
     Raise Reference.unencodable) /\
  Reference.unencodable <> Reference.incorrect_padding.
Proof.
  split; [|split].
  - apply b64decode_fails. reflexivity.
  - reflexivity.
  - discriminate.
Qed.

(** Text that the decoder rejects, and the base64 text of bytes that are not
    an image; the first on an ASCII standard output too. *)
Lemma invalid_input_is_rejected_witness :
  (exists evs,
     omap drawn_or_encoded evs = [] /\
     Forall (fun ev => is_convert ev = false) evs /\
     draw_circles_on_image_v2 "not base64!" [(2, 2)] 1 red black 1 []
     = ([] ++ evs ++ [Printed (error_message Reference.incorrect_padding)],
        Raise Reference.incorrect_padding)) /\
  (exists evs,
     omap drawn_or_encoded evs = [] /\
     Forall (fun ev => is_convert ev = false) evs /\
     draw_circles_on_image_v2 "QUJD" [(2, 2)] 1 red black 1 []
     = ([] ++ evs ++ [Printed (error_message Reference.unidentified)],
        Raise Reference.unidentified)) /\
  (exists evs,
     omap drawn_or_encoded evs = [] /\
     Forall (fun ev => is_convert ev = false) evs /\
     draw_circles_on_image_v2 (console := Reference.ascii_stdout)
       "not base64!" [(2, 2)] 1 red black 1 []
     = ([] ++ evs, Raise Reference.unencodable)).
Proof.
  assert (Hdecode : b64decode "not base64!" = Raise Reference.incorrect_padding)
    by reflexivity.
  assert (Hopen : exists data, b64decode "QUJD" = Return data /\
                               Image_open data = Raise Reference.unidentified)
    by (exists [x41; x42; x43]; split; reflexivity).
  split; [|split].
  - exact (invalid_input_is_rejected "not base64!" [(2, 2)] 1 red black 1
             Reference.incorrect_padding [] (or_introl Hdecode)).
  - exact (invalid_input_is_rejected "QUJD" [(2, 2)] 1 red black 1
             Reference.unidentified [] (or_intror Hopen)).
  - exact (invalid_input_is_rejected (console := Reference.ascii_stdout)
             "not base64!" [(2, 2)] 1 red black 1
             Reference.incorrect_padding [] (or_introl Hdecode)).
Defined.

(** A string that is not valid base64 and is annotated all the same: the
    decoder discards the [!] and reads the rest, the text of the sample
    photo. *)
Lemma foreign_characters_are_discarded :
  valid_base64 (String "!" photo_text) = false /\
  b64decode (String "!" photo_text) = Return photo_file /\
  (draw_circles_on_image_v2 (String "!" photo_text) [(2, 2)] 1 red black 1 []).2
  = Return ringed_text.
Proof. repeat split. Qed.

(** Two circles that overlap: the second is drawn on the image that the
    first left. *)
Lemma one_ellipse_per_coordinate_witness :
  exists pre loop r post,
    (draw_circles_on_image_v2 photo_text [(2, 2); (3, 2)] 1 red black 1 []).1
    = [] ++ pre ++ [Called (call_Draw photo_rgba) None] ++ loop ++ post /\
    ellipse_calls pre = [] /\
    drawn 1 red black 1 photo_rgba [(2, 2); (3, 2)] loop r /\
    ellipse_calls post = [] /\
    match r with
    | Return annotated =>
        ellipse_calls loop = expected_ellipses [(2, 2); (3, 2)] 1 red black 1 /\
        (exists rest,
           post = Called (call_save annotated "PNG")
                         (raised (Image_save annotated "PNG")) :: rest) /\
        forall png,
          Image_save annotated "PNG" = Return png ->
          (draw_circles_on_image_v2 photo_text [(2, 2); (3, 2)] 1 red black 1
             []).2
          = Return (b64encode png)
    | Raise e =>
        post = diagnostic e /\
        (draw_circles_on_image_v2 photo_text [(2, 2); (3, 2)] 1 red black 1
           []).2
        = Raise (propagated e)
    end.
Proof.
  apply (proj2 (one_ellipse_per_coordinate photo_text [(2, 2); (3, 2)] 1
                  red black 1 [])
           photo_file photo photo_rgba photo_rgba);
    reflexivity.
Defined.

(** The run of the two overlapping circles, event by event. *)
Example circles_pile_up :
  draw_circles_on_image_v2 photo_text [(2, 2); (3, 2)] 1 red black 1 []
  = ([Called (call_b64decode photo_text) None;
      Called (call_Image_open photo_file) None;
      Called (call_convert photo "RGBA") None;
      Called (call_Draw photo_rgba) None;
      Called (call_ellipse photo_rgba ((1, 1), (3, 3)) red black 1) None;
      Called (call_ellipse ringed ((2, 1), (4, 3)) red black 1) None;
      Called (call_save ringed_twice "PNG") None;
      Called (call_b64encode ringed_twice_file) None],
     Return (b64encode ringed_twice_file)).
Proof. reflexivity. Qed.


Lemma returns_annotated_image_witness :
  (exists evs,
     draw_circles_on_image_v2 photo_text [(2, 2)] 1 red black 1 []
     = ([] ++ evs, Return ringed_text) /\ quiet evs) /\
  (exists image_out,
     decode_image ringed_text = Return image_out /\
     Image_mode image_out = "RGBA" /\
     same_picture image_out ringed /\
     (0 <= 1 ->
      forall p,
        (forall c, c ∈ [(2, 2)] ->
                   ~ in_box (expand 1 (square_around c 1)) p) ->
        Image_getpixel image_out p = Image_getpixel photo_rgba p)) /\
  (forall c, c ∈ [(2, 2)] -> center (square_around c 1) = Some c).
Proof.
  apply (returns_annotated_image photo_text [(2, 2)] 1 red black 1 []
           photo_file photo photo_rgba photo_rgba ringed ringed_file);
    reflexivity.
Defined.


Lemma empty_coordinates_reencode_the_input_witness :
  draw_circles_on_image_v2 photo_text [] 1 red black 1 []
  = ([] ++ [Called (call_b64decode photo_text) None;
            Called (call_Image_open photo_file) None]
        ++ normalize_events photo
        ++ [Called (call_Draw photo_rgba) None;
            Called (call_save photo_rgba "PNG") None;
            Called (call_b64encode photo_rgba_file) None],
     Return (b64encode photo_rgba_file)) /\
  exists image_out,
    decode_image (b64encode photo_rgba_file) = Return image_out /\
    same_picture image_out photo_rgba /\
    forall png0 reference,
      Image_save photo_rgba "PNG" = Return png0 ->
      Image_open png0 = Return reference ->
      same_pixels image_out reference.
Proof.
  apply (empty_coordinates_reencode_the_input photo_text 1 red black 1 []
           photo_file photo photo_rgba photo_rgba photo_rgba_file);
    reflexivity.
Defined.

Lemma alpha_channel_added_and_kept_witness :
  has_alpha_channel (Image_mode photo) = false /\
  exists evs,
    (draw_circles_on_image_v2 photo_text [(2, 2)] 1 red black 1 []).1
    = [] ++ [Called (call_b64decode photo_text) None;
             Called (call_Image_open photo_file) None;
             Called (call_convert photo "RGBA")
                    (raised (Image_convert photo "RGBA"))] ++ evs /\
    Forall (fun ev => is_convert ev = false) evs /\
    match (draw_circles_on_image_v2 photo_text [(2, 2)] 1 red black 1 []).2 with
    | Return out =>
        exists pre annotated png image_out,
          evs = pre ++ [Called (call_save annotated "PNG") None;
                        Called (call_b64encode png) None] /\
          out = b64encode png /\
          decode_image out = Return image_out /\
          Image_mode image_out = "RGBA" /\
          has_alpha_channel (Image_mode image_out) = true /\
          same_picture image_out annotated
    | Raise _ => True
    end.
Proof.
  split; [reflexivity|].
  apply (alpha_channel_added_and_kept photo_text [(2, 2)] 1 red black 1 []
           photo_file photo);
    reflexivity.
Defined.

(** A grey image with an alpha band is converted all the same. *)
Lemma converted_unless_RGBA_witness :
  has_alpha_channel (Image_mode grey) = true /\
  Image_mode grey <> "RGBA" /\
  exists pre evs,
    (draw_circles_on_image_v2 grey_text [(0, 0)] 1 None black 1 []).1
    = [] ++ [Called (call_b64decode grey_text) None;
             Called (call_Image_open grey_file) None] ++ pre ++ evs /\
    (Image_mode grey = "RGBA" -> pre = []) /\
    (Image_mode grey <> "RGBA" ->
     pre = [Called (call_convert grey "RGBA")
                   (raised (Image_convert grey "RGBA"))]) /\
    Forall (fun ev => is_convert ev = false) evs /\
    Forall (fun ev => forall im, drawn_or_encoded ev = Some im ->
                                 Image_mode im = "RGBA") evs.
Proof.
  split; [reflexivity|]. split; [discriminate|].
  apply (converted_unless_RGBA grey_text [(0, 0)] 1 None black 1 []
           grey_file grey);
    reflexivity.
Defined.

(** Repeated and out-of-image coordinates are drawn as they come. *)
Example ellipse_calls_of_repeated_coordinates :
  ellipse_calls
    (draw_circles_on_image_v2 photo_text [(2, 2); (2, 2); (-40, 900)] 3
       None black 1 []).1
  = [(((-1, -1), (5, 5)), None, black, 1);
     (((-1, -1), (5, 5)), None, black, 1);
     (((-43, 897), (-37, 903)), None, black, 1)].
Proof. reflexivity. Qed.

(** The call of the demonstration block, on the sample photo. *)
Example ellipse_calls_of_the_demonstration :
  ellipse_calls
    (draw_circles_on_image_v2 photo_text [(100, 100); (300, 200)] 50
       (Some (ColorRGBA 0 255 0 128)) black 5 []).1
  = [(((50, 50), (150, 150)), Some (ColorRGBA 0 255 0 128), black, 5);
     (((250, 150), (350, 250)), Some (ColorRGBA 0 255 0 128), black, 5)].
Proof. reflexivity. Qed.

(** A call with no optional argument draws red discs of radius 15. *)
Example ellipse_calls_with_defaults :
  ellipse_calls
    (call_draw_circles_on_image_v2 photo_text [(2, 2)] no_keywords []).1
  = [(((-13, -13), (17, 17)), Some (ColorStr "red"), ColorStr "red", 1)].
Proof. reflexivity. Qed.

(** A colour the library does not know: the first [ellipse] call raises,
    and the call ends there. *)
Example unknown_colour_raises :
  draw_circles_on_image_v2 photo_text [(2, 2); (3, 3)] 1
    (Some (ColorStr "rde")) black 1 []
  = ([Called (call_b64decode photo_text) None;
      Called (call_Image_open photo_file) None;
      Called (call_convert photo "RGBA") None;
      Called (call_Draw photo_rgba) None;
      Called (call_ellipse photo_rgba ((1, 1), (3, 3))
                (Some (ColorStr "rde")) black 1)
             (Some (mkException "ValueError" "unknown color specifier"));
      Printed (error_message
                 (mkException "ValueError" "unknown color specifier"))],
     Raise (mkException "ValueError" "unknown color specifier")).
Proof. reflexivity. Qed.

End samples.

(** * More about the function *)

(** ** The order and the arguments of the calls *)

Section pipeline.
Context {lib : Imports} {console : Stdout}.

(** The place of an event in the body of the function, by source line:
    the two decoding calls, the conversion, the drawing context, the loop,
    the two encoding calls, and the [print] of the handler. *)
Definition stage (ev : event) : nat :=
  match ev with
  | Called (call_b64decode _) _ => 0
  | Called (call_Image_open _) _ => 1
  | Called (call_convert _ _) _ => 2
  | Called (call_Draw _) _ => 3
  | Called (call_ellipse _ _ _ _ _) _ => 4
  | Called (call_save _ _) _ => 5
  | Called (call_b64encode _) _ => 6
  | Printed _ => 7
  end.

(** [a] may come before [b]: it is at an earlier place, or both are
    [ellipse] calls of the loop. *)
Definition before (a b : event) : Prop :=
  (stage a < stage b)%nat \/ (stage a = 4%nat /\ stage b = 4%nat).

(** The arguments that the body fixes: a conversion is to RGBA and of an
    image that is not RGBA, and a save is as PNG. *)
Definition fixed_arguments (ev : event) : Prop :=
  match ev with
  | Called (call_convert image mode) _ =>
      mode = "RGBA" /\ Image_mode image <> "RGBA"
  | Called (call_save _ format) _ => format = "PNG"
  | _ => True
  end.

Definition is_save (ev : event) : bool :=
  match ev with
  | Called (call_save _ _) _ => true
  | _ => false
  end.

Lemma loop_events_stage cs radius fill outline width : forall draw,
  Forall (fun ev => stage ev = 4%nat)
         (loop_events draw cs radius fill outline width).
Proof.
  induction cs as [|c cs IH]; intros draw; cbn [loop_events].
  - constructor.
  - constructor; [done|].
    destruct (circle_at draw c radius fill outline width); [apply IH|constructor].
Qed.

Lemma same_stage_sorted evs :
  Forall (fun ev => stage ev = 4%nat) evs -> StronglySorted before evs.
Proof.
  induction 1 as [|ev evs Hev Hevs IH]; constructor; [done|].
  eapply Forall_impl; [exact Hevs|]. intros ev' Hev'. by right.
Qed.

Lemma normalize_events_cases image :
  normalize_events image = [] \/
  (Image_mode image <> "RGBA" /\
   normalize_events image
   = [Called (call_convert image "RGBA") (raised (Image_convert image "RGBA"))]).
Proof.
  unfold normalize_events.
  destruct (String.eqb (Image_mode image) "RGBA") eqn:Hmode; cbn.
  - by left.
  - right. split; [|done]. by apply String.eqb_neq.
Qed.

(** Events at places below the loop, then the loop, then events at places
    above it. *)
Lemma sorted_around_loop pre loop post :
  StronglySorted before pre ->
  Forall (fun ev => (stage ev < 4)%nat) pre ->
  Forall (fun ev => stage ev = 4%nat) loop ->
  StronglySorted before post ->
  Forall (fun ev => (4 < stage ev)%nat) post ->
  StronglySorted before (pre ++ loop ++ post).
Proof.
  intros Hpre Hlow Hloop Hpost Hhigh.
  apply StronglySorted_app. split; [|split; [done|]].
  - intros a b Ha [Hb|Hb]%elem_of_app.
    + rewrite Forall_forall in Hlow, Hloop.
      left. rewrite (Hloop b Hb). by apply Hlow.
    + rewrite Forall_forall in Hlow, Hhigh.
      left. specialize (Hlow a Ha). specialize (Hhigh b Hb). lia.
  - apply StronglySorted_app. split; [|split; [by apply same_stage_sorted|done]].
    intros a b Ha Hb. rewrite Forall_forall in Hloop, Hhigh.
    left. rewrite (Hloop a Ha). by apply Hhigh.
Qed.

Ltac sorted_explicit :=
  repeat first
    [ apply SSorted_nil
    | apply SSorted_cons
    | apply Forall_nil_2
    | apply Forall_cons_2 ];
  try (left; cbn; lia); try (cbn; lia).

(** X1. In every run the events come in the order of the body: [b64decode],
    [Image.open], [convert], [Draw], the [ellipse] calls, [save],
    [b64encode], and the [print] of the handler last.  Only [ellipse] is
    called more than once. *)
Theorem calls_follow_the_body s cs radius fill outline width h :
  exists evs,
    (draw_circles_on_image_v2 s cs radius fill outline width h).1 = h ++ evs /\
    StronglySorted before evs.
Proof.
  destruct (ways_complete s cs radius fill outline width h)
    as (evs & r & -> & Hway).
  exists evs. split; [reflexivity|].
  destruct Hway as
    [ e Hd
    | data e Hd Ho
    | data image e Hd Ho Hn
    | data image image0 e Hd Ho Hn HD
    | data image image0 draw e Hd Ho Hn HD Hl
    | data image image0 draw annotated e Hd Ho Hn HD Hl Hs
    | data image image0 draw annotated png Hd Ho Hn HD Hl Hs ];
    try (destruct (diagnostic_cases e) as [Hdiag|Hdiag]; rewrite Hdiag;
         clear Hdiag);
    try (destruct (normalize_events_cases image) as [Hnorm|[_ Hnorm]];
         rewrite Hnorm; clear Hnorm);
    cbn [app];
    first
      [ eapply (sorted_around_loop [_; _; _; _]);
        [| |apply loop_events_stage| |]
      | eapply (sorted_around_loop [_; _; _]);
        [| |apply loop_events_stage| |]
      | idtac ];
    sorted_explicit.
Qed.

End pipeline.

Section arguments_and_failures.
Context {lib : Imports} {console : Stdout}.

Lemma loop_events_fixed cs radius fill outline width : forall draw,
  Forall fixed_arguments (loop_events draw cs radius fill outline width).
Proof.
  induction cs as [|c cs IH]; intros draw; cbn [loop_events].
  - constructor.
  - constructor; [done|].
    destruct (circle_at draw c radius fill outline width); [apply IH|constructor].
Qed.

Lemma normalize_events_fixed image : Forall fixed_arguments (normalize_events image).
Proof.
  destruct (normalize_events_cases image) as [->|[Hmode ->]]; repeat constructor.
  done.
Qed.

(** X2. Whatever the format and the mode of the input, in every run a
    [convert] call asks for RGBA and is made on an image that is not RGBA,
    and a [save] call asks for PNG. *)
Theorem converts_to_RGBA_and_saves_as_PNG s cs radius fill outline width h :
  exists evs,
    (draw_circles_on_image_v2 s cs radius fill outline width h).1 = h ++ evs /\
    Forall fixed_arguments evs.
Proof.
  destruct (ways_complete s cs radius fill outline width h)
    as (evs & r & -> & Hway).
  exists evs. split; [reflexivity|].
  destruct Hway;
    repeat first
      [ apply Forall_nil_2
      | apply Forall_cons_2
      | apply Forall_app_2
      | apply normalize_events_fixed
      | apply loop_events_fixed
      | by apply diagnostic_no_call ];
    done.
Qed.

(** X3. If a run on the coordinates [cs1] raises before any [save] call --
    in decoding, conversion, the drawing context or an [ellipse] call -- then
    with further coordinates [cs2] appended the run is the same, event for
    event, and raises the same exception: the coordinates after a failure
    are never drawn. *)
Theorem later_coordinates_are_not_drawn
    s cs1 cs2 radius fill outline width h evs e :
  draw_circles_on_image_v2 s cs1 radius fill outline width h
  = (h ++ evs, Raise e) ->
  Forall (fun ev => is_save ev = false) evs ->
  draw_circles_on_image_v2 s (cs1 ++ cs2) radius fill outline width h
  = (h ++ evs, Raise e).
Proof.
  intros Hrun Hnosave.
  destruct (ways_complete s cs1 radius fill outline width h)
    as (evs' & r & Hrun' & Hway).
  rewrite Hrun in Hrun'. injection Hrun' as Hevs <-.
  apply app_inv_head in Hevs as <-.
  apply run_way.
  inversion Hway as
    [ e' Hd
    | data e' Hd Ho
    | data image e' Hd Ho Hn
    | data image image0 e' Hd Ho Hn HD
    | data image image0 draw e' Hd Ho Hn HD Hl
    | data image image0 draw annotated e' Hd Ho Hn HD Hl Hs
    | data image image0 draw annotated png Hd Ho Hn HD Hl Hs ]; subst.
  - by apply way_b64decode.
  - by eapply way_open.
  - by eapply way_convert.
  - by eapply way_Draw.
  - assert (Hevents :
      loop_events draw (cs1 ++ cs2) radius fill outline width
      = loop_events draw cs1 radius fill outline width)
      by by rewrite loop_events_app, Hl, app_nil_r.
    rewrite <- Hevents. eapply way_ellipse; [done..|].
    by rewrite with_circles_app, Hl.
  - exfalso. rewrite Forall_forall in Hnosave.
    assert (Hsave : is_save (Called (call_save annotated "PNG") (Some e'))
                    = false); [|done].
    apply Hnosave. rewrite !elem_of_app. do 4 right. left. by left.
Qed.

End arguments_and_failures.

(** ** Feeding the output back in *)

Section feeding_back.
Context {lib : Imports} {contracts : ImportsSpec lib} {console : Stdout}.

Lemma same_picture_sym a b : same_picture a b -> same_picture b a.
Proof. intros [Hm Hp]. split; [done|]. intros p. by rewrite Hp. Qed.

(** What a run that returns went through. *)
Lemma returned_run s cs radius fill outline width h out :
  (draw_circles_on_image_v2 s cs radius fill outline width h).2 = Return out ->
  exists data image image0 draw annotated png,
    b64decode s = Return data /\
    Image_open data = Return image /\
    normalized image = Return image0 /\
    ImageDraw_Draw image0 = Return draw /\
    with_circles draw cs radius fill outline width = Return annotated /\
    Image_save annotated "PNG" = Return png /\
    out = b64encode png.
Proof.
  destruct (ways_complete s cs radius fill outline width h)
    as (evs & r & -> & Hway).
  cbn [snd]. intros ->.
  inversion Hway as
    [ | | | | |
    | data image image0 draw annotated png Hd Ho Hn HD Hl Hs ]; subst.
  by exists data, image, image0, draw, annotated, png.
Qed.

Lemma annotated_mode cs radius fill outline width image image0 draw annotated :
  normalized image = Return image0 ->
  ImageDraw_Draw image0 = Return draw ->
  with_circles draw cs radius fill outline width = Return annotated ->
  Image_mode annotated = "RGBA".
Proof.
  intros Hn HD Hl.
  rewrite (with_circles_mode _ _ _ _ _ _ _ Hl), (Draw_mode _ _ HD).
  by eapply normalized_mode.
Qed.

(** X4. A string that the function returned is a valid input to it: it
    decodes to an RGBA image, so a run on it passes both decoding calls and
    goes straight to the drawing context, with no [convert] call. *)
Theorem output_is_an_RGBA_input s cs radius fill outline width h out :
  (draw_circles_on_image_v2 s cs radius fill outline width h).2 = Return out ->
  exists data image,
    b64decode out = Return data /\
    Image_open data = Return image /\
    Image_mode image = "RGBA" /\
    forall cs' radius' fill' outline' width' h',
      exists evs',
        (draw_circles_on_image_v2 out cs' radius' fill' outline' width' h').1
        = h' ++ [Called (call_b64decode out) None;
                 Called (call_Image_open data) None;
                 Called (call_Draw image) (raised (ImageDraw_Draw image))]
             ++ evs' /\
        Forall (fun ev => is_convert ev = false) evs'.
Proof.
  intros (data0 & image & image0 & draw & annotated & png
          & Hd & Ho & Hn & HD & Hl & Hs & ->)%returned_run.
  pose proof (annotated_mode _ _ _ _ _ _ _ _ _ Hn HD Hl) as Hmode.
  destruct (decode_encoded _ _ Hmode Hs) as (image_out & Hout & Hsame).
  unfold decode_image in Hout. rewrite b64decode_b64encode in Hout.
  assert (Hmode_out : Image_mode image_out = "RGBA")
    by (destruct Hsame as [-> _]; done).
  exists png, image_out.
  split; [apply b64decode_b64encode|]. split; [done|]. split; [done|].
  intros cs' radius' fill' outline' width' h'.
  destruct (normalized_RGBA _ Hmode_out) as [Hnorm Hevents].
  pose proof (b64decode_b64encode png) as Hdecode.
  destruct (ways_complete (b64encode png) cs' radius' fill' outline' width' h')
    as (evs & r & -> & Hway).
  cbn [fst].
  destruct Hway as
    [ e Hd'
    | data' e Hd' Ho'
    | data' image' e Hd' Ho' Hn'
    | data' image' image0' e Hd' Ho' Hn' HD'
    | data' image' image0' draw' e Hd' Ho' Hn' HD' Hl'
    | data' image' image0' draw' annotated' e Hd' Ho' Hn' HD' Hl' Hs'
    | data' image' image0' draw' annotated' png' Hd' Ho' Hn' HD' Hl' Hs' ];
    same_result; rewrite Hevents, ?HD'; cbn [raised app];
    (eexists; split; [reflexivity|]);
    repeat first
      [ apply Forall_nil_2
      | apply Forall_cons_2
      | apply Forall_app_2
      | apply loop_events_no_convert
      | by apply diagnostic_no_call ];
    done.
Qed.

(** The drawing primitive depends on the picture only: on two images with
    the same picture, calls with the same arguments that both return give
    the same picture. *)
Definition ellipse_respects_pictures : Prop :=
  forall a b xy fill outline width a' b',
    same_picture a b ->
    ImageDraw_ellipse a xy fill outline width = Return a' ->
    ImageDraw_ellipse b xy fill outline width = Return b' ->
    same_picture a' b'.

Lemma with_circles_respects_pictures cs radius fill outline width :
  ellipse_respects_pictures ->
  forall a b a' b',
    same_picture a b ->
    with_circles a cs radius fill outline width = Return a' ->
    with_circles b cs radius fill outline width = Return b' ->
    same_picture a' b'.
Proof.
  intros Hellipse.
  induction cs as [|c cs IH]; intros a b a' b' Hsame; cbn [with_circles].
  - by intros [= <-] [= <-].
  - unfold circle_at.
    destruct (ImageDraw_ellipse a _ fill outline width) as [a1|] eqn:Ha; [|done].
    destruct (ImageDraw_ellipse b _ fill outline width) as [b1|] eqn:Hb; [|done].
    apply IH. by eapply Hellipse.
Qed.

(** X5. Annotating in two calls is annotating in one.  If the call on [s]
    with [cs1] returns [out1], the call on [out1] with [cs2] returns [out2],
    and the call on [s] with [cs1 ++ cs2] returns [out12], all with the same
    drawing parameters, then [out2] and [out12] decode to the same picture --
    given that the drawing primitive depends on the picture only. *)
Theorem two_calls_draw_what_one_call_draws
    s cs1 cs2 radius fill outline width h1 h2 h12 out1 out2 out12 :
  ellipse_respects_pictures ->
  (draw_circles_on_image_v2 s cs1 radius fill outline width h1).2
  = Return out1 ->
  (draw_circles_on_image_v2 out1 cs2 radius fill outline width h2).2
  = Return out2 ->
  (draw_circles_on_image_v2 s (cs1 ++ cs2) radius fill outline width h12).2
  = Return out12 ->
  exists image2 image12,
    decode_image out2 = Return image2 /\
    decode_image out12 = Return image12 /\
    same_picture image2 image12.
Proof.
  intros Hellipse
    (data & image & image0 & draw & annotated1 & png1
     & Hd & Ho & Hn & HD & Hl & Hs & ->)%returned_run
    (data2 & image2_in & image2_0 & draw2 & annotated2 & png2
     & Hd2 & Ho2 & Hn2 & HD2 & Hl2 & Hs2 & ->)%returned_run
    (data' & image' & image0' & draw' & annotated12 & png12
     & Hd' & Ho' & Hn' & HD' & Hl' & Hs' & ->)%returned_run.
  same_result.
  pose proof Hl' as Hrest. rewrite with_circles_app, Hl in Hrest.
  (* the image that the second call decodes *)
  pose proof (annotated_mode _ _ _ _ _ _ _ _ _ Hn HD Hl) as Hmode1.
  destruct (decode_encoded _ _ Hmode1 Hs) as (im1 & Hout1 & Hsame1).
  unfold decode_image in Hout1. rewrite Hd2 in Hout1.
  assert (image2_in = im1) as -> by congruence.
  assert (Hmode_in : Image_mode im1 = "RGBA")
    by (destruct Hsame1 as [-> _]; done).
  destruct (normalized_RGBA _ Hmode_in) as [Hnorm _].
  assert (image2_0 = im1) as -> by congruence.
  assert (Hdraw2 : same_picture draw2 annotated1).
  { eapply same_picture_trans; [|exact Hsame1]. by apply Draw_same_picture. }
  pose proof (with_circles_respects_pictures _ _ _ _ _ Hellipse
                _ _ _ _ Hdraw2 Hl2 Hrest) as Hsame.
  (* the two outputs *)
  pose proof (annotated_mode _ _ _ _ _ _ _ _ _ Hnorm HD2 Hl2) as Hmode2.
  pose proof (annotated_mode _ _ _ _ _ _ _ _ _ Hn HD Hl') as Hmode12.
  destruct (decode_encoded _ _ Hmode2 Hs2) as (image2 & Hout2 & Hsame2).
  destruct (decode_encoded _ _ Hmode12 Hs') as (image12 & Hout12 & Hsame12).
  exists image2, image12. split; [done|]. split; [done|].
  eapply same_picture_trans; [exact Hsame2|].
  eapply same_picture_trans; [exact Hsame|].
  by apply same_picture_sym.
Qed.

End feeding_back.

(** ** The demonstration block

    The code under [if __name__ == '__main__':].  It needs two more
    operations than the function: [Image.new], and writing a file. *)

Class ScriptImports {lib : Imports} : Type := {
  (** [Image.new(mode, size, color)] *)
  Image_new : string -> Z * Z -> ColorValue -> result Image;
  (** [with open(filename, "wb") as f: f.write(data)] *)
  write_binary : string -> bytes -> result unit
}.

Section script.
Context {lib : Imports} {script_lib : ScriptImports} {console : Stdout}.

Inductive script_call : Type :=
| call_new (mode : string) (size : Z * Z) (color : ColorValue)
| call_write (filename : string) (data : bytes).

(** The events of the script: those of the kinds above, and its own two. *)
Inductive script_event : Type :=
| Event (ev : event)
| Script_called (c : script_call) (exc : option PyException).

Definition script (A : Type) : Type :=
  list script_event -> list script_event * result A.

#[export] Instance script_ret : MRet script :=
  fun A (a : A) h => (h, Return a).

#[export] Instance script_bind : MBind script :=
  fun A B (k : A -> script B) (m : script A) h =>
    match m h with
    | (h', Return a) => k a h'
    | (h', Raise e) => (h', Raise e)
    end.

(** A computation of the function's kind, run inside the script. *)
Definition lift {A} (m : py A) : script A :=
  fun h => let '(evs, r) := m [] in (h ++ (Event <$> evs), r).

Definition script_invoke {A} (c : script_call) (r : result A) : script A :=
  fun h => (h ++ [Script_called c (raised r)], r).

(** [if modified_base64:] -- a string is true when it is not empty. *)
Definition truthy (s : string) : bool := negb (String.eqb s "").

Definition output_filename : string := "output_image_v2.png".

(** [f"图片处理完成，已保存为 '{output_filename}'"] *)
Definition saved_message : string :=
  ("图片处理完成，已保存为 '" ++ output_filename ++ "'")%string.

Definition main : script unit :=
  dummy_image ← script_invoke (call_new "RGB" (400, 400) (ColorStr "#EEEEEE"))
                  (Image_new "RGB" (400, 400) (ColorStr "#EEEEEE"));
  buffered ← lift (invoke (call_save dummy_image "PNG")
                          (Image_save dummy_image "PNG"));
  base64_str ← lift (invoke (call_b64encode buffered)
                            (Return (b64encode buffered)));
  let points := [(100, 100); (300, 200)] in
  modified_base64 ← lift (draw_circles_on_image_v2 base64_str points 50
                            (Some (ColorRGBA 0 255 0 128)) (ColorStr "black") 5);
  if truthy modified_base64
  then
    img_data ← lift (invoke (call_b64decode modified_base64)
                            (b64decode modified_base64));
    _ ← script_invoke (call_write output_filename img_data)
          (write_binary output_filename img_data);
    lift (print saved_message)
  else mret tt.

End script.

Arguments saved_message : simpl never.

Section script_runs.
Context {lib : Imports} {script_lib : ScriptImports} {console : Stdout}.






End script_runs.

Section script_properties.
Context {lib : Imports} {script_lib : ScriptImports} {console : Stdout}.

Context {contracts : ImportsSpec lib}.




End script_properties.

(** ** The reference drawing depends on the picture only *)

Module ReferenceDrawing.
Import Reference.

(** The bands of a pixel at [p] after an ellipse, from its bands before. *)
Definition glaze (m : mode) (b : box) (fill : option pixel) (outline : pixel)
    (stroke : Z) (p : point) (old : list Z) : list Z :=
  if inside b p
  then if inside (expand (- stroke) b) p
       then from_option (bands m) old fill
       else bands m outline
  else old.

Lemma ellipse_inks im b fill outline stroke im' :
  ellipse im b fill outline stroke = Return im' ->
  exists fill_ink ink,
    getcolor outline = Some ink /\
    from_option (fun c => Some <$> getcolor c) (Some None) fill = Some fill_ink /\
    im' = mkImage (im_mode im) (im_width im)
            (imap (paint (width im) b fill_ink ink stroke) (im_pixels im)).
Proof.
  unfold ellipse.
  destruct (getcolor outline) as [ink|]; [|done].
  destruct (from_option _ _ fill) as [fill_ink|]; [|done].
  destruct (_ || _); [done|]. intros [= <-]. by eexists _, _.
Qed.

Lemma getpixel_painted im b fill_ink ink stroke p :
  getpixel
    (mkImage (im_mode im) (im_width im)
       (imap (paint (width im) b fill_ink ink stroke) (im_pixels im))) p
  = glaze (im_mode im) b fill_ink ink stroke p <$> getpixel im p.
Proof.
  unfold getpixel, width. cbn [im_mode im_width im_pixels].
  fold (width im).
  destruct ((0 <=? p.1) && (p.1 <? width im) && (0 <=? p.2)) eqn:Hin; [|done].
  apply andb_true_iff in Hin as [[Hx0 Hx1]%andb_true_iff Hy].
  apply Z.leb_le in Hx0, Hy. apply Z.ltb_lt in Hx1.
  rewrite list_lookup_imap.
  destruct (im_pixels im !! Z.to_nat (p.2 * width im + p.1)) as [old|]; [|done].
  cbn. f_equal. unfold paint, glaze.
  rewrite ReferenceFacts.index_column, ReferenceFacts.index_row by done.
  destruct p as [x y]. cbn [fst snd].
  destruct (inside b (x, y)); [|done].
  destruct (inside (expand (- stroke) b) (x, y)); [|done].
  by destruct fill_ink.
Qed.

Lemma mode_name_inj m1 m2 : mode_name m1 = mode_name m2 -> m1 = m2.
Proof. by destruct m1, m2. Qed.

Lemma respects_pictures : ellipse_respects_pictures (lib := library).
Proof.
  intros a b xy fill outline stroke a' b' [Hmode Hpixels]
    (fa & ia & Hia & Hfa & ->)%ellipse_inks
    (fb & ib & Hib & Hfb & ->)%ellipse_inks.
  assert (ia = ib) as -> by congruence.
  assert (fa = fb) as -> by congruence.
  cbn in Hmode. apply mode_name_inj in Hmode.
  split; [cbn; by rewrite Hmode|].
  intros p. cbn. rewrite !getpixel_painted, Hmode.
  f_equal. apply Hpixels.
Qed.

End ReferenceDrawing.

(** ** The script on the sample inputs *)

Module SampleScript.
Import Reference Sample.

(** A stand-in for the two operations of the script.  Reference bitmaps have
    at most 255 columns, so [Image.new] gives the 5 x 5 sample photo whatever
    size is asked for; writing a file succeeds. *)
Definition script_library : ScriptImports (lib := library) := {|
  Image_new := fun _ _ _ => Return photo;
  write_binary := fun _ _ => Return tt
|}.

Definition text (r : result string) : string :=
  match r with
  | Return s => s
  | Raise _ => EmptyString
  end.

(** [ringed_text] with a second ring, at (1, 1), drawn by a second call, and
    [photo_text] with both rings drawn by one call. *)
Definition two_calls_text : string :=
  Eval vm_compute in
    text (draw_circles_on_image_v2 (lib := library) (console := utf8_stdout)
            ringed_text [(1, 1)] 1 red black 1 []).2.

Definition one_call_text : string :=
  Eval vm_compute in
    text (draw_circles_on_image_v2 (lib := library) (console := utf8_stdout)
            photo_text ([(2, 2)] ++ [(1, 1)]) 1 red black 1 []).2.

End SampleScript.

Section more_samples.
Import Sample SampleScript.
#[local] Existing Instance Reference.library.
#[local] Existing Instance ReferenceFacts.contracts.
#[local] Existing Instance Reference.utf8_stdout.
#[local] Existing Instance script_library.

(** The first [ellipse] call raises on the colour: the coordinates that
    follow change nothing. *)
Lemma later_coordinates_are_not_drawn_witness :
  draw_circles_on_image_v2 photo_text ([(2, 2)] ++ [(3, 3); (4, 4)]) 1
    (Some (ColorStr "rde")) black 1 []
  = ([] ++ [Called (call_b64decode photo_text) None;
            Called (call_Image_open photo_file) None;
            Called (call_convert photo "RGBA") None;
            Called (call_Draw photo_rgba) None;
            Called (call_ellipse photo_rgba ((1, 1), (3, 3))
                      (Some (ColorStr "rde")) black 1)
                   (Some (mkException "ValueError" "unknown color specifier"));
            Printed (error_message
                       (mkException "ValueError" "unknown color specifier"))],
     Raise (mkException "ValueError" "unknown color specifier")).
Proof.
  apply (later_coordinates_are_not_drawn photo_text [(2, 2)] [(3, 3); (4, 4)]
           1 (Some (ColorStr "rde")) black 1 []).
  - reflexivity.
  - repeat constructor.
Defined.

Lemma output_is_an_RGBA_input_witness :
  exists data image,
    b64decode ringed_text = Return data /\
    Image_open data = Return image /\
    Image_mode image = "RGBA" /\
    forall cs' radius' fill' outline' width' h',
      exists evs',
        (draw_circles_on_image_v2 ringed_text cs' radius' fill' outline'
           width' h').1
        = h' ++ [Called (call_b64decode ringed_text) None;
                 Called (call_Image_open data) None;
                 Called (call_Draw image) (raised (ImageDraw_Draw image))]
             ++ evs' /\
        Forall (fun ev => is_convert ev = false) evs'.
Proof.
  apply (output_is_an_RGBA_input photo_text [(2, 2)] 1 red black 1 []
           ringed_text).
  reflexivity.
Defined.

Lemma two_calls_draw_what_one_call_draws_witness :
  exists image2 image12,
    decode_image two_calls_text = Return image2 /\
    decode_image one_call_text = Return image12 /\
    same_picture image2 image12.
Proof.
  apply (two_calls_draw_what_one_call_draws photo_text [(2, 2)] [(1, 1)]
           1 red black 1 [] [] [] ringed_text two_calls_text one_call_text).
  - apply ReferenceDrawing.respects_pictures.
  - reflexivity.
  - reflexivity.
  - reflexivity.
Defined.


(** On the sample library the script ends with the write of the encoded
    picture and the message; the circles of the script lie outside the
    5 x 5 photo, so the picture is the photo in RGBA. *)
Example script_on_the_sample :
  (main []).2 = Return tt /\
  drop 11 (main []).1
  = [Event (Called (call_b64decode (b64encode photo_rgba_file)) None);
     Script_called (call_write "output_image_v2.png" photo_rgba_file) None;
     Event (Printed saved_message)].
Proof. split; reflexivity. Qed.

(** On an ASCII standard output the script writes the file and then
    raises, in the [print] of its last line. *)
Example script_on_an_ascii_stdout :
  (main (console := Reference.ascii_stdout) []).2 = Raise Reference.unencodable /\
  drop 11 (main (console := Reference.ascii_stdout) []).1
  = [Event (Called (call_b64decode (b64encode photo_rgba_file)) None);
     Script_called (call_write "output_image_v2.png" photo_rgba_file) None].
Proof. split; reflexivity. Qed.

(** On the sample library the two calls and the one call even give the
    same text. *)
Example two_calls_text_is_one_call_text : two_calls_text = one_call_text.
Proof. reflexivity. Qed.

End more_samples.
